(** * JavaBuildAgent: the local build execution manager

    A shallow embedding of [src/execution/local_manager.py] (class
    [LocalManager]) and of the part of the Python runtime it drives
    ([posixpath], [os], [shutil], [subprocess], the logger), followed by
    the properties of the manager stated in the specification.

    Modelling conventions.
    - Path strings are Python [str] values; [posixpath.join], [basename]
      and [dirname] follow the library's text.
    - The file system is a tree of directories and regular files without
      symbolic links and without permission checks: an operation fails only
      for structural reasons (missing path, wrong kind of node).  Paths are
      resolved lexically, relative ones against the process's working
      directory; on a path without [..] components ([plain]) this is the
      resolution of the kernel, and what a removal or a copy leaves behind
      at a path is stated for such paths.
    - Directory entries are an association list; its order is the order in
      which [os.scandir] reports them.
    - [shutil.copytree] copies the source tree as it stands when the call
      starts.
    - The child process is not modelled: [subprocess.run] asks an oracle that
      either completes (return code, two captured streams, new file system)
      or raises; a second oracle gives the file system a raising call
      leaves behind, since the call can raise after the process ran.
    - Exceptions are the subclasses of [Exception]; a computation is a
      function from the state of the process to an outcome and a new
      state. *)

From Stdlib Require Import ZArith NArith Ascii List Bool Lia.
From Stdlib Require String.
From stdpp Require Import base option list strings gmap pretty.

Local Open Scope Z_scope.

(** ** posixpath *)

Module posixpath.

Definition sep : ascii := "/"%char.

Definition is_sep (c : ascii) : bool := Ascii.eqb c sep.

(** [b.startswith(sep)] *)
Definition startswith_sep (s : string) : bool :=
  match s with
  | String c _ => is_sep c
  | EmptyString => false
  end.

(** [path.endswith(sep)] *)
Fixpoint endswith_sep (s : string) : bool :=
  match s with
  | EmptyString => false
  | String c EmptyString => is_sep c
  | String _ r => endswith_sep r
  end.

Definition is_empty (s : string) : bool :=
  match s with EmptyString => true | _ => false end.

(** One round of the loop of [posixpath.join]. *)
Definition join2 (path b : string) : string :=
  if startswith_sep b then b
  else if is_empty path || endswith_sep path then path +:+ b
  else path +:+ "/" +:+ b.

(** [os.path.join(a, *p)] *)
Definition join (a : string) (p : list string) : string :=
  fold_left join2 p a.

(** [p.rfind(sep)], [None] standing for -1. *)
Fixpoint rfind_sep (p : string) : option nat :=
  match p with
  | EmptyString => None
  | String c r =>
      match rfind_sep r with
      | Some i => Some (S i)
      | None => if is_sep c then Some 0%nat else None
      end
  end.

(** [i = p.rfind(sep) + 1] *)
Definition cut (p : string) : nat :=
  match rfind_sep p with Some i => S i | None => 0%nat end.

(** Slices [p[:i]] and [p[i:]]. *)
Fixpoint take (i : nat) (p : string) : string :=
  match i, p with
  | S j, String c r => String c (take j r)
  | _, _ => EmptyString
  end.

Fixpoint drop (i : nat) (p : string) : string :=
  match i, p with
  | S j, String _ r => drop j r
  | _, _ => p
  end.

(** [head == sep * len(head)] *)
Fixpoint all_sep (s : string) : bool :=
  match s with
  | EmptyString => true
  | String c r => is_sep c && all_sep r
  end.

(** [head.rstrip(sep)] *)
Fixpoint rstrip_sep (s : string) : string :=
  match s with
  | EmptyString => EmptyString
  | String c r =>
      let r' := rstrip_sep r in
      if is_sep c && is_empty r' then EmptyString else String c r'
  end.

Definition basename (p : string) : string := drop (cut p) p.

Definition dirname (p : string) : string :=
  let head := take (cut p) p in
  if negb (is_empty head) && negb (all_sep head) then rstrip_sep head
  else head.

(** [os.path.isabs] *)
Definition isabs (p : string) : bool := startswith_sep p.

(** [p.split(sep)]: the fields between separators, never an empty list. *)
Fixpoint fields (p : string) : list string :=
  match p with
  | EmptyString => [EmptyString]
  | String c r =>
      if is_sep c then EmptyString :: fields r
      else match fields r with
           | f :: fs => String c f :: fs
           | [] => [String c EmptyString]
           end
  end.

Definition is_dot (s : string) : bool := String.eqb s ".".
Definition is_dotdot (s : string) : bool := String.eqb s "..".

(** The components that name something: empty fields (doubled or trailing
    separators) and [.] are skipped by path resolution. *)
Definition components (p : string) : list string :=
  List.filter (fun f => negb (is_empty f) && negb (is_dot f)) (fields p).

(** Lexical treatment of [..]: drop the component before it; at the root it
    stays at the root.  The stack holds the components seen so far, last
    first. *)
Definition up (stack : list string) (c : string) : list string :=
  if is_dotdot c then List.tl stack else c :: stack.

Definition normalize (cs : list string) : list string :=
  List.rev (fold_left up cs []).

(** A name a directory entry can have. *)
Fixpoint no_sep (s : string) : bool :=
  match s with
  | EmptyString => true
  | String c r => negb (is_sep c) && no_sep r
  end.

Definition valid_name (n : string) : bool :=
  negb (is_empty n) && negb (is_dot n) && negb (is_dotdot n) && no_sep n.

(** A path string that is not empty and does not end with a separator. *)
Definition tidy (r : string) : bool := negb (is_empty r) && negb (endswith_sep r).

End posixpath.

(** ** Python values found in the configuration dictionary *)

Inductive pyval : Type :=
| PNone
| PBool (b : bool)
| PInt (z : Z)
| PStr (s : string)
| POther (text : string).   (* any other object (float, list, ...); [text] is its [str()] *)

#[global] Instance pyval_eq_dec : EqDecision pyval.
Proof. solve_decision. Defined.

(** [str(v)] *)
Definition py_str (v : pyval) : string :=
  match v with
  | PNone => "None"
  | PBool true => "True"
  | PBool false => "False"
  | PInt z => pretty z
  | PStr s => s
  | POther text => text
  end.

(** [v == s] for a string literal [s]: only a [str] equals a [str]. *)
Definition py_eq_str (v : pyval) (s : string) : bool :=
  match v with
  | PStr t => String.eqb t s
  | _ => false
  end.

(** Truth value of an optional string ([None] and [""] are false). *)
Definition truthy (o : option string) : bool :=
  match o with
  | Some s => negb (posixpath.is_empty s)
  | None => false
  end.

(** ** The file system tree *)

#[warnings="-register-all"] Inductive node : Type :=
| File (mode : N) (data : string)
| Dir (mode : N) (entries : list (string * node)).

Module FS.

Definition is_dir (n : node) : bool :=
  match n with Dir _ _ => true | File _ _ => false end.

(** The first entry called [name]. *)
Fixpoint assoc (name : string) (es : list (string * node)) : option node :=
  match es with
  | [] => None
  | (k, n) :: es' => if String.eqb k name then Some n else assoc name es'
  end.

Fixpoint lookup (p : list string) (n : node) : option node :=
  match p with
  | [] => Some n
  | c :: p' =>
      match n with
      | Dir _ es =>
          match assoc c es with
          | Some ch => lookup p' ch
          | None => None
          end
      | File _ _ => None
      end
  end.

(** Rewrite the entries called [c]. *)
Definition on_entry (c : string) (f : node -> node) (es : list (string * node))
  : list (string * node) :=
  List.map (fun e => if String.eqb (fst e) c then (fst e, f (snd e)) else e) es.

Definition drop_entry (c : string) (es : list (string * node))
  : list (string * node) :=
  List.filter (fun e => negb (String.eqb (fst e) c)) es.

(** Apply [f] to the node at [p], if there is one. *)
Fixpoint alter (f : node -> node) (p : list string) (n : node) : node :=
  match p with
  | [] => f n
  | c :: p' =>
      match n with
      | Dir m es => Dir m (on_entry c (alter f p') es)
      | File _ _ => n
      end
  end.

(** Unlink the whole subtree at [p]. *)
Fixpoint remove (p : list string) (n : node) : node :=
  match p with
  | [] => n
  | c :: p' =>
      match n with
      | Dir m es =>
          match p' with
          | [] => Dir m (drop_entry c es)
          | _ :: _ => Dir m (on_entry c (remove p') es)
          end
      | File _ _ => n
      end
  end.

(** Mode of a directory made by [os.makedirs] (0o777 under umask 022). *)
Definition dir_mode : N := 493.

(** [x] below freshly made directories [p]. *)
Fixpoint chain (p : list string) (x : node) : node :=
  match p with
  | [] => x
  | c :: p' => Dir dir_mode [(c, chain p' x)]
  end.

Inductive errno : Type := ENOENT | EEXIST | ENOTDIR | EISDIR.

(** Create [x] at the new path [p], making the missing directories above
    it ([os.makedirs] followed by the population of the new directory). *)
Fixpoint place (p : list string) (x : node) (n : node) : errno + node :=
  match p with
  | [] => inl EEXIST
  | c :: p' =>
      match n with
      | File _ _ => inl ENOTDIR
      | Dir m es =>
          match assoc c es with
          | None => inr (Dir m (es ++ [(c, chain p' x)]))
          | Some ch =>
              match place p' x ch with
              | inr ch' => inr (Dir m (on_entry c (fun _ => ch') es))
              | inl e => inl e
              end
          end
      end
  end.

(** Open [p] for writing and store the file [x]: the parent must be a
    directory, an existing file is replaced. *)
Fixpoint put (p : list string) (x : node) (n : node) : errno + node :=
  match p with
  | [] => match n with File _ _ => inr x | Dir _ _ => inl EISDIR end
  | c :: p' =>
      match n with
      | File _ _ => inl ENOTDIR
      | Dir m es =>
          match assoc c es with
          | Some ch =>
              match put p' x ch with
              | inr ch' => inr (Dir m (on_entry c (fun _ => ch') es))
              | inl e => inl e
              end
          | None =>
              match p' with
              | [] => inr (Dir m (es ++ [(c, x)]))
              | _ :: _ => inl ENOENT
              end
          end
      end
  end.

(** Why nothing is found at [p]: a regular file on the way ([ENOTDIR]) or
    a missing name ([ENOENT]). *)
Fixpoint miss (p : list string) (n : node) : errno :=
  match p, n with
  | _ :: _, File _ _ => ENOTDIR
  | c :: p', Dir _ es =>
      match assoc c es with
      | Some ch => miss p' ch
      | None => ENOENT
      end
  | [], _ => ENOENT
  end.

Definition with_mode (m : N) (n : node) : node :=
  match n with
  | File _ d => File m d
  | Dir _ es => Dir m es
  end.

(** Names a directory lists, split as [os.walk] does. *)
Definition dirnames (es : list (string * node)) : list string :=
  List.map fst (List.filter (fun e => is_dir (snd e)) es).

Definition filenames (es : list (string * node)) : list string :=
  List.map fst (List.filter (fun e => negb (is_dir (snd e))) es).

(** [os.walk(top)], top-down, errors ignored: the triples
    [(root, dirs, files)] in the order the generator yields them. *)
Fixpoint walk (top : string) (n : node) : list (string * list string * list string) :=
  match n with
  | File _ _ => []
  | Dir _ es =>
      (top, dirnames es, filenames es) ::
      List.flat_map
        (fun '(name, ch) =>
           if is_dir ch then walk (posixpath.join top [name]) ch else [])
        es
  end.

(** Trees a real file system can hold: entry names are proper names and
    no directory lists a name twice. *)
Fixpoint wf (n : node) : bool :=
  match n with
  | File _ _ => true
  | Dir _ es =>
      forallb (fun e => posixpath.valid_name (fst e)) es
      && bool_decide (NoDup (List.map fst es))
      && forallb (fun '(_, ch) => wf ch) es
  end.

End FS.

(** ** Exceptions, the process state and the effect monad *)

Inductive exn : Type :=
| FileNotFoundError (filename : string)
| FileExistsError (filename : string)
| NotADirectoryError (filename : string)
| IsADirectoryError (filename : string)
| SameFileError (src dst : string)
| OSError (text : string).      (* any other exception, with its [str()] *)

(** [repr(s)] of a [str], as [str()] of an [OSError] shows a file name:
    between single quotes, or between double quotes when the text has a
    single quote and no double quote; the quote in use, the backslash and
    the control characters are escaped.  Text outside ASCII is taken to be
    printable. *)
Definition single_quote : ascii := ascii_of_nat 39.
Definition double_quote : ascii := ascii_of_nat 34.
Definition backslash : ascii := ascii_of_nat 92.

Fixpoint contains (c : ascii) (s : string) : bool :=
  match s with
  | EmptyString => false
  | String a r => Ascii.eqb a c || contains c r
  end.

Definition hex_digit (n : nat) : ascii :=
  ascii_of_nat (if Nat.ltb n 10 then 48 + n else 87 + n).

Definition escape (q c : ascii) : string :=
  let n := nat_of_ascii c in
  if Ascii.eqb c q || Ascii.eqb c backslash then String backslash (String c EmptyString)
  else if Nat.eqb n 9 then String backslash "t"
  else if Nat.eqb n 10 then String backslash "n"
  else if Nat.eqb n 13 then String backslash "r"
  else if Nat.ltb n 32 || Nat.eqb n 127
       then String backslash
              (String "x" (String (hex_digit (n / 16)) (String (hex_digit (n mod 16)) EmptyString)))
  else String c EmptyString.

Fixpoint escaped (q : ascii) (s : string) : string :=
  match s with
  | EmptyString => EmptyString
  | String a r => escape q a +:+ escaped q r
  end.

Definition quote (s : string) : string :=
  let q := if contains single_quote s && negb (contains double_quote s)
           then double_quote else single_quote in
  String q (escaped q s +:+ String q EmptyString).

(** [str(e)] *)
Definition str_exn (e : exn) : string :=
  match e with
  | FileNotFoundError f => "[Errno 2] No such file or directory: " +:+ quote f
  | FileExistsError f => "[Errno 17] File exists: " +:+ quote f
  | NotADirectoryError f => "[Errno 20] Not a directory: " +:+ quote f
  | IsADirectoryError f => "[Errno 21] Is a directory: " +:+ quote f
  | SameFileError s d => quote s +:+ " and " +:+ quote d +:+ " are the same file"
  | OSError text => text
  end.

Definition of_errno (e : FS.errno) (filename : string) : exn :=
  match e with
  | FS.ENOENT => FileNotFoundError filename
  | FS.EEXIST => FileExistsError filename
  | FS.ENOTDIR => NotADirectoryError filename
  | FS.EISDIR => IsADirectoryError filename
  end.

Inductive level : Type := INFO | WARNING | ERROR.

(** One call of [subprocess.run]. *)
Record launch : Type := Launch {
  launch_cmd : list string;
  launch_cwd : string;
  launch_env : gmap string string
}.

(** [subprocess.CompletedProcess] *)
Record CompletedProcess : Type := Completed {
  returncode : Z;
  stdout : string;
  stderr : string
}.

(** What running a command does: it raises, or it runs to completion and
    leaves a file system behind. *)
Definition child_oracle : Type :=
  list string -> string -> gmap string string -> node -> exn + CompletedProcess * node.

(** The file system a call that raises leaves behind: the one it found when
    the process could not be started, possibly another one when the call
    raises after the process ran (captured output that cannot be decoded
    as text). *)
Definition child_residue : Type :=
  list string -> string -> gmap string string -> node -> node.

Record world : Type := World {
  fs : node;                           (* the root directory *)
  getcwd : list string;                (* working directory of the manager's process *)
  environ : gmap string string;        (* [os.environ] *)
  journal : list (level * string);     (* what the logger received *)
  launches : list launch;              (* calls of [subprocess.run], oldest first *)
  module_file : string;                (* [__file__] of the manager's module *)
  run_child : child_oracle;            (* the programs of the host *)
  run_residue : child_residue          (* what their failed runs leave on the disk *)
}.

Definition set_fs (f : node) (w : world) : world :=
  World f (getcwd w) (environ w) (journal w) (launches w) (module_file w) (run_child w)
        (run_residue w).

Definition add_journal (l : level) (msg : string) (w : world) : world :=
  World (fs w) (getcwd w) (environ w) (journal w ++ [(l, msg)]) (launches w)
        (module_file w) (run_child w) (run_residue w).

Definition add_launch (x : launch) (w : world) : world :=
  World (fs w) (getcwd w) (environ w) (journal w) (launches w ++ [x])
        (module_file w) (run_child w) (run_residue w).

Inductive outcome (A : Type) : Type :=
| Ok (a : A)
| Raise (e : exn).
Arguments Ok {A} a.
Arguments Raise {A} e.

Definition M (A : Type) : Type := world -> outcome A * world.

Definition ret {A} (a : A) : M A := fun w => (Ok a, w).

Definition raise {A} (e : exn) : M A := fun w => (Raise e, w).

Definition bind {A B} (m : M A) (k : A -> M B) : M B :=
  fun w =>
    match m w with
    | (Ok a, w') => k a w'
    | (Raise e, w') => (Raise e, w')
    end.

(** [try: body except Exception as e: handler(e)] *)
Definition try_except {A} (body : M A) (handler : exn -> M A) : M A :=
  fun w =>
    match body w with
    | (Ok a, w') => (Ok a, w')
    | (Raise e, w') => handler e w'
    end.

Declare Scope py_scope.
Delimit Scope py_scope with py.
Notation "x <- m ;; k" := (bind m (fun x => k))
  (at level 100, m at next level, right associativity) : py_scope.
Notation "m ;; k" := (bind m (fun _ => k))
  (at level 100, right associativity) : py_scope.

Local Open Scope py_scope.

(** [for x in xs: body(x)] *)
Fixpoint for_each {A} (xs : list A) (body : A -> M unit) : M unit :=
  match xs with
  | [] => ret tt
  | x :: xs' => body x ;; for_each xs' body
  end.

Definition when (b : bool) (m : M unit) : M unit := if b then m else ret tt.

(** ** The runtime: logger, [os], [shutil] *)

(** Modelled from the spec: the [logger] object of [src/utils/logger.py],
    which is not among the sources.  The specification only says that
    messages are "logged" at a level: a call records the level and the text
    and has no other effect. *)
Definition log (l : level) (msg : string) : M unit :=
  fun w => (Ok tt, add_journal l msg w).

(** Where a path string leads: the components from the root.  The empty
    string names nothing.  A [..] is cancelled against the component before
    it without a look at the disk, which is what the kernel finds on the
    paths called [plain] below. *)
Definition locate (w : world) (p : string) : option (list string) :=
  if posixpath.is_empty p then None
  else Some (posixpath.normalize
               ((if posixpath.isabs p then [] else getcwd w)
                ++ posixpath.components p)).

Definition stat (w : world) (p : string) : option node :=
  match locate w p with
  | Some cs => FS.lookup cs (fs w)
  | None => None
  end.

Module os.

(** [os.path.exists] *)
Definition path_exists (p : string) : M bool :=
  fun w => (Ok (bool_decide (is_Some (stat w p))), w).

(** [os.path.isdir] *)
Definition path_isdir (p : string) : M bool :=
  fun w => (Ok (match stat w p with Some n => FS.is_dir n | None => false end), w).

(** [os.environ.copy()] *)
Definition environ_copy : M (gmap string string) :=
  fun w => (Ok (environ w), w).

(** [list(os.walk(top))]; the generator touches nothing, so consuming it
    lazily or at once is the same. *)
Definition walk (top : string) : M (list (string * list string * list string)) :=
  fun w => (Ok (match stat w top with Some n => FS.walk top n | None => [] end), w).

(** [os.chmod(p, mode)]: the path must lead somewhere; below a regular
    file the error is [NotADirectoryError]. *)
Definition chmod (p : string) (mode : N) : M unit :=
  fun w =>
    match locate w p with
    | Some cs =>
        match FS.lookup cs (fs w) with
        | Some _ => (Ok tt, set_fs (FS.alter (FS.with_mode mode) cs (fs w)) w)
        | None => (Raise (of_errno (FS.miss cs (fs w)) p), w)
        end
    | None => (Raise (FileNotFoundError p), w)
    end.

End os.

Module shutil.

(** [shutil.rmtree(p)] with the default error handling.  Removing the root
    directory empties it and then fails.  The last [rmdir] is taken to find
    the emptied directory where the first look at the path found it, as it
    does on a path without [..]. *)
Definition rmtree (p : string) : M unit :=
  fun w =>
    match locate w p with
    | None => (Raise (FileNotFoundError p), w)
    | Some cs =>
        match FS.lookup cs (fs w) with
        | None => (Raise (FileNotFoundError p), w)
        | Some (File _ _) => (Raise (NotADirectoryError p), w)
        | Some (Dir m _) =>
            match cs with
            | [] => (Raise (OSError ("[Errno 16] Device or resource busy: " +:+ quote p)),
                     set_fs (Dir m []) w)
            | _ :: _ => (Ok tt, set_fs (FS.remove cs (fs w)) w)
            end
        end
    end.

(** [shutil.copytree(src, dst)]: [src] is listed first, [dst] must be new
    and is made with its missing parents, then receives a copy of the tree
    as it was listed.  This is the call for a [dst] outside [src] and
    without [..]; what is proved of the copied tree assumes both. *)
Definition copytree (src dst : string) : M unit :=
  fun w =>
    match stat w src with
    | None => (Raise (FileNotFoundError src), w)
    | Some (File _ _) => (Raise (NotADirectoryError src), w)
    | Some (Dir m es) =>
        match locate w dst with
        | None => (Raise (FileNotFoundError dst), w)
        | Some cs =>
            match FS.place cs (Dir m es) (fs w) with
            | inr root => (Ok tt, set_fs root w)
            | inl e => (Raise (of_errno e dst), w)
            end
        end
    end.

(** [os.path.samefile], false when either path is missing. *)
Definition samefile (w : world) (a b : string) : bool :=
  match stat w a, stat w b with
  | Some _, Some _ => bool_decide (locate w a = locate w b)
  | _, _ => false
  end.

(** [shutil.copy(src, dst)]: into [dst] when it is a directory, over it
    otherwise; content and mode bits are copied. *)
Definition copy (src dst : string) : M unit :=
  fun w =>
    let dst := match stat w dst with
               | Some (Dir _ _) => posixpath.join dst [posixpath.basename src]
               | _ => dst
               end in
    if samefile w src dst then (Raise (SameFileError src dst), w)
    else
      match stat w src with
      | None => (Raise (FileNotFoundError src), w)
      | Some (Dir _ _) => (Raise (IsADirectoryError src), w)
      | Some (File m d) =>
          match locate w dst with
          | None => (Raise (FileNotFoundError dst), w)
          | Some cs =>
              match FS.put cs (File m d) (fs w) with
              | inr root => (Ok tt, set_fs root w)
              | inl e => (Raise (of_errno e dst), w)
              end
          end
      end.

End shutil.

(** ** subprocess *)

(** [subprocess.run(cmd, cwd=cwd, env=env, capture_output=True, text=True,
    check=False)] *)
Definition subprocess_run
    (cmd : list string) (cwd : string) (env : gmap string string)
  : M CompletedProcess :=
  fun w =>
    let w1 := add_launch (Launch cmd cwd env) w in
    match run_child w cmd cwd env (fs w) with
    | inr (process, root) => (Ok process, set_fs root w1)
    | inl e => (Raise e, set_fs (run_residue w cmd cwd env (fs w)) w1)
    end.

(** The module global [__file__]. *)
Definition dunder_file : M string := fun w => (Ok (module_file w), w).

Definition newline : string := String (ascii_of_nat 10) EmptyString.

(** ** class LocalManager *)

Definition tmp_root : string := "/data2/donggyu/benchmark/sec_code/tmp".
Definition jdk8_home : string := posixpath.join tmp_root ["jdks"; "temurin8"].
Definition jdk17_home : string := posixpath.join tmp_root ["jdks"; "temurin17"].
Definition maven_home : string := posixpath.join tmp_root ["maven"].
Definition gradle_home : string := posixpath.join tmp_root ["gradle"].

(** The JDK switch of [_run_build] (lines 89-92). *)
Definition select_java_home (jdk_version : pyval) : string :=
  if String.eqb (py_str jdk_version) "17" then jdk17_home else jdk8_home.

(** The test of the search loops (lines 110 and 134) on one triple of
    [os.walk]. *)
Definition is_tool_dir (exe : string) (t : string * list string * list string) : bool :=
  let '(root, _, files) := t in
  bool_decide (exe ∈ files)
  && String.eqb
       (posixpath.basename (posixpath.dirname (posixpath.join root [exe]))) "bin".

(** Lines 105-113 and 129-137: the binary at [home/bin/exe], else the first
    hit of the walk over [home]; [None] when the loop ends with
    [found = False]. *)
Definition resolve_binary (home exe : string) : M (option string) :=
  let bin_path := posixpath.join home ["bin"; exe] in
  present <- os.path_exists bin_path ;;
  if (present : bool) then ret (Some bin_path)
  else
    triples <- os.walk home ;;
    match List.find (is_tool_dir exe) triples with
    | Some (root, _, _) => ret (Some (posixpath.join root [exe]))
    | None => ret None
    end.

(** How the first part of [_run_build] ends: with one of its early
    [return]s, or ready to start the process. *)
Inductive plan : Type :=
| EarlyReturn (exit_code : Z) (logs : string)
| Proceed (cmd : list string) (bin_path : string) (cwd : string)
          (env : gmap string string).

Record LocalManager : Type := {
  workspace_path : string;
  env_config : gmap string pyval;
  build_relative_path : string
}.

Section methods.

Variable self : LocalManager.

Definition _validate_tools : M unit :=
  for_each [jdk8_home; jdk17_home; maven_home; gradle_home] (fun path =>
    present <- os.path_exists path ;;
    when (negb present)
      (log WARNING ("Tool path not found: " +:+ path +:+
                    ". Local execution might fail if this tool is needed."))).

(** The body of the loop of [_clean_target_on_host]. *)
Definition clean_target_dir (target_dir : string) : M unit :=
  present <- os.path_exists target_dir ;;
  when present
    (log INFO ("Cleaning target directory: " +:+ target_dir) ;;
     try_except (shutil.rmtree target_dir)
       (fun e => log WARNING ("Failed to clean target directory: " +:+ str_exn e))).

Definition _clean_target_on_host : M unit :=
  let target_dir_mvn :=
    posixpath.join (workspace_path self) [build_relative_path self; "target"] in
  let target_dir_gradle :=
    posixpath.join (workspace_path self) [build_relative_path self; "build"] in
  for_each [target_dir_mvn; target_dir_gradle] clean_target_dir.

(** Lines 80-168 of [_run_build]. *)
Definition prepare : M plan :=
  log INFO "Running build locally..." ;;
  let build_tool := default (PStr "maven") (env_config self !! "build_tool") in
  let jdk_version := default (PInt 8) (env_config self !! "jdk_version") in
  env <- os.environ_copy ;;
  let java_home := select_java_home jdk_version in
  let env := <["JAVA_HOME" := java_home]> env in
  let path_elements := [posixpath.join java_home ["bin"]] in
  let cwd := posixpath.join (workspace_path self) [build_relative_path self] in
  let finish (cmd : list string) (bin_path : string) (path_elements : list string) : M plan :=
    let env :=
      <["PATH" := String.concat ":" path_elements +:+ ":" +:+ default "" (env !! "PATH")]> env in
    log INFO ("Command: " +:+ String.concat " " cmd) ;;
    log INFO ("JAVA_HOME: " +:+ java_home) ;;
    log INFO ("CWD: " +:+ cwd) ;;
    ret (Proceed cmd bin_path cwd env) in
  if py_eq_str build_tool "gradle" then
    found <- resolve_binary gradle_home "gradle" ;;
    match found with
    | None => ret (EarlyReturn (-1) ("Gradle binary not found in " +:+ gradle_home))
    | Some gradle_bin_path =>
        let cmd := [gradle_bin_path; "compileJava"; "-x"; "test"; "--stacktrace"; "--info"] in
        this_file <- dunder_file ;;
        let init_gradle_src :=
          posixpath.join (posixpath.dirname this_file) ["templates"; "init.gradle"] in
        present <- os.path_exists init_gradle_src ;;
        cmd <- (if (present : bool) then
                  let init_gradle_dst := posixpath.join (workspace_path self) ["init.gradle"] in
                  shutil.copy init_gradle_src init_gradle_dst ;;
                  ret (cmd ++ ["--init-script"; init_gradle_dst])
                else ret cmd) ;;
        finish cmd gradle_bin_path (path_elements ++ [posixpath.dirname gradle_bin_path])
    end
  else if py_eq_str build_tool "maven" then
    found <- resolve_binary maven_home "mvn" ;;
    match found with
    | None => ret (EarlyReturn (-1) ("Maven binary not found in " +:+ maven_home))
    | Some mvn_bin_path =>
        let cmd := [mvn_bin_path; "package"; "-DskipTests"; "-T"; "1C"] in
        let exclusions : list string := [] in
        let distribution_path := posixpath.join cwd ["distribution"] in
        present <- os.path_exists distribution_path ;;
        let exclusions := if (present : bool) then exclusions ++ ["!distribution"] else exclusions in
        let cmd := match exclusions with
                   | [] => cmd
                   | _ :: _ => cmd ++ ["-pl"; String.concat "," exclusions]
                   end in
        let cmd := cmd ++ ["-Dskip.npm=true"; "-Dskip.node=true"; "-Dskip.installnodenpm=true"] in
        let settings_xml := posixpath.join (workspace_path self) ["settings.xml"] in
        present <- os.path_exists settings_xml ;;
        let cmd := if (present : bool) then cmd ++ ["-s"; settings_xml] else cmd in
        finish cmd mvn_bin_path (path_elements ++ [posixpath.dirname mvn_bin_path])
    end
  else
    ret (EarlyReturn (-1) ("Unknown build tool: " +:+ py_str build_tool)).

(** Lines 170-191 of [_run_build]. *)
Definition start (cmd : list string) (bin_path cwd : string)
    (env : gmap string string) : M (Z * string) :=
  try_except
    (os.chmod bin_path 493 ;;
     process <- subprocess_run cmd cwd env ;;
     let logs := stdout process +:+ newline +:+ stderr process in
     ret (returncode process, logs))
    (fun e =>
       log ERROR ("Subprocess failed: " +:+ str_exn e) ;;
       ret (-1, str_exn e)).

Definition _run_build : M (Z * string) :=
  p <- prepare ;;
  match p with
  | EarlyReturn exit_code logs => ret (exit_code, logs)
  | Proceed cmd bin_path cwd env => start cmd bin_path cwd env
  end.

(** Lines 200-211 of [_extract_artifacts]: the value of [source_classes]. *)
Definition find_classes : M (option string) :=
  let source_classes_mvn :=
    posixpath.join (workspace_path self) [build_relative_path self; "target"; "classes"] in
  let source_classes_gradle :=
    posixpath.join (workspace_path self) [build_relative_path self; "build"; "classes"; "java"; "main"] in
  mvn <- os.path_exists source_classes_mvn ;;
  if (mvn : bool) then ret (Some source_classes_mvn)
  else
    gradle <- os.path_exists source_classes_gradle ;;
    if (gradle : bool) then ret (Some source_classes_gradle)
    else
      let source_classes_gradle_legacy :=
        posixpath.join (workspace_path self) [build_relative_path self; "build"; "classes"; "main"] in
      legacy <- os.path_exists source_classes_gradle_legacy ;;
      if (legacy : bool) then ret (Some source_classes_gradle_legacy) else ret None.

Definition _extract_artifacts (output_path : string) : M unit :=
  log INFO "Extracting artifacts..." ;;
  let source_classes_mvn :=
    posixpath.join (workspace_path self) [build_relative_path self; "target"; "classes"] in
  let source_classes_gradle :=
    posixpath.join (workspace_path self) [build_relative_path self; "build"; "classes"; "java"; "main"] in
  source_classes <- find_classes ;;
  if negb (truthy source_classes) then
    log WARNING ("No classes found at " +:+ source_classes_mvn +:+ " or "
                 +:+ source_classes_gradle)
  else
    let source_classes := default "" source_classes in
    let dest_classes := posixpath.join output_path ["classes"] in
    present <- os.path_exists dest_classes ;;
    when present (shutil.rmtree dest_classes) ;;
    try_except
      (shutil.copytree source_classes dest_classes ;;
       log INFO ("Artifacts extracted to " +:+ dest_classes))
      (fun e => log ERROR ("Failed to extract artifacts: " +:+ str_exn e)).

Definition execute (output_path : option string) : M (bool * string) :=
  try_except
    (_clean_target_on_host ;;
     r <- _run_build ;;
     let '(exit_code, build_logs) := r in
     let logs := build_logs in
     if exit_code =? 0 then
       when (truthy output_path)
         (_extract_artifacts (default "" output_path)) ;;
       ret (true, logs)
     else ret (false, logs))
    (fun e =>
       log ERROR ("Execution failed with exception: " +:+ str_exn e) ;;
       ret (false, str_exn e)).

End methods.

(** [LocalManager(workspace_path, env_config, build_relative_path)] *)
Definition __init__ (workspace_path : string) (env_config : gmap string pyval)
    (build_relative_path : string) : M LocalManager :=
  let self := Build_LocalManager workspace_path env_config build_relative_path in
  _validate_tools ;;
  ret self.

(** ** Notions used to state the properties *)

(** Where the directory named by [x] lies: the entries [ds] of
    [join x ds] are looked up below it. *)
Definition anchor (w : world) (x : string) : list string :=
  posixpath.normalize
    ((if posixpath.isabs x then [] else getcwd w) ++ posixpath.components x).

(** The tree without the directory at [cs]; a regular file there stays. *)
Definition sweep (cs : list string) (root : node) : node :=
  match FS.lookup cs root with
  | Some (Dir _ _) => FS.remove cs root
  | _ => root
  end.

(** What one round of cleaning writes to the log. *)
Definition sweep_log (p : string) (found : option node) : list (level * string) :=
  match found with
  | None => []
  | Some (Dir _ _) => [(INFO, "Cleaning target directory: " +:+ p)]
  | Some (File _ _) =>
      [(INFO, "Cleaning target directory: " +:+ p);
       (WARNING, "Failed to clean target directory: " +:+ str_exn (NotADirectoryError p))]
  end.

(** What is left at a path after an attempt to remove a directory there. *)
Definition unless_dir (found : option node) : option node :=
  match found with
  | Some (Dir _ _) => None
  | o => o
  end.

(** The directory the build runs in. *)
Definition build_dir (self : LocalManager) : string :=
  posixpath.join (workspace_path self) [build_relative_path self].

(** The configured values, with the defaults of [dict.get]. *)
Definition backend (self : LocalManager) : pyval :=
  default (PStr "maven") (env_config self !! "build_tool").

Definition jdk_version (self : LocalManager) : pyval :=
  default (PInt 8) (env_config self !! "jdk_version").

(** The Maven command line in the words of the specification. *)
Definition maven_command (self : LocalManager) (w : world) (mvn : string) : list string :=
  [mvn; "package"; "-DskipTests"; "-T"; "1C"]
  ++ (if bool_decide (is_Some (stat w (posixpath.join (build_dir self) ["distribution"])))
      then ["-pl"; "!distribution"] else [])
  ++ ["-Dskip.npm=true"; "-Dskip.node=true"; "-Dskip.installnodenpm=true"]
  ++ (if bool_decide (is_Some (stat w (posixpath.join (workspace_path self) ["settings.xml"])))
      then ["-s"; posixpath.join (workspace_path self) ["settings.xml"]] else []).

(** The child environment in the words of the specification. *)
Definition child_env (inherited : gmap string string) (java_home tool_bin_dir : string)
  : gmap string string :=
  <["PATH" := posixpath.join java_home ["bin"] +:+ ":" +:+ tool_bin_dir +:+ ":"
              +:+ default "" (inherited !! "PATH")]>
    (<["JAVA_HOME" := java_home]> inherited).

(** The three log lines that precede the start of the process. *)
Definition announce (cmd : list string) (java_home cwd : string) (w : world) : world :=
  add_journal INFO ("CWD: " +:+ cwd)
    (add_journal INFO ("JAVA_HOME: " +:+ java_home)
       (add_journal INFO ("Command: " +:+ String.concat " " cmd) w)).

(** A computation that leaves the manager's own environment and working
    directory as they were, however it ends. *)
Definition keeps_process {A} (m : M A) : Prop :=
  forall w, environ (snd (m w)) = environ w /\ getcwd (snd (m w)) = getcwd w.

(** The same manager with one configuration key set. *)
Definition with_config (k : string) (v : pyval) (self : LocalManager) : LocalManager :=
  {| workspace_path := workspace_path self;
     env_config := <[k := v]> (env_config self);
     build_relative_path := build_relative_path self |}.

(** The reading of "the exclusion flag is there exactly when a
    [distribution] directory exists" on the command the run step builds. *)
Definition exclusion_iff_directory : Prop :=
  forall (self : LocalManager) (w w' : world) cmd bin cwd env,
    backend self = PStr "maven" ->
    prepare self w = (Ok (Proceed cmd bin cwd env), w') ->
    (In "-pl" cmd <->
     exists m es, stat w (posixpath.join (build_dir self) ["distribution"]) = Some (Dir m es)).

(** The candidate class trees in the order of the specification: Maven,
    Gradle, legacy Gradle. *)
Definition class_trees (self : LocalManager) : list string :=
  [posixpath.join (build_dir self) ["target"; "classes"];
   posixpath.join (build_dir self) ["build"; "classes"; "java"; "main"];
   posixpath.join (build_dir self) ["build"; "classes"; "main"]].

(** The first path of a list that exists. *)
Definition first_existing (w : world) (ps : list string) : option string :=
  List.find (fun p => bool_decide (is_Some (stat w p))) ps.

(** The two tool installations: backend name, install root, executable
    name, and the name used in the message. *)
Definition installs : list (string * string * string * string) :=
  [("gradle", gradle_home, "gradle", "Gradle");
   ("maven", maven_home, "mvn", "Maven")].

(** ** A sample host *)

Definition sample_tools : node :=
  Dir 493
    [("jdks", Dir 493 [("temurin8", Dir 493 []); ("temurin17", Dir 493 [])]);
     ("maven", Dir 493 [("bin", Dir 493 [("mvn", File 420 "#!/bin/sh")])]);
     ("gradle",
      Dir 493
        [("gradle-8.5",
          Dir 493
            [("lib", Dir 493 []);
             ("bin", Dir 493 [("gradle.bat", File 420 "@echo off");
                              ("gradle", File 420 "#!/bin/sh")])])])].

Definition sample_root : node :=
  Dir 493
    [("data2", FS.chain ["donggyu"; "benchmark"; "sec_code"; "tmp"] sample_tools);
     ("w", Dir 493
        [("pom.xml", File 420 "<project/>");
         ("target", Dir 493 [("classes", Dir 493 [("Old.class", File 420 "old")])]);
         ("build",
          FS.chain ["classes"; "java"] (Dir 493 [("main", Dir 493 [("G.class", File 420 "gradle")])]))]);
     ("w2", Dir 493
        [("pom.xml", File 420 "<project/>");
         ("distribution", File 420 "a regular file")]);
     ("w3", Dir 493
        [("target", File 420 "a regular file");
         ("build", Dir 493 [("classes", Dir 493 [])])]);
     ("out", Dir 493 [("classes", Dir 493 [("B.class", File 420 "previous project")])]);
     ("bad", Dir 493 [("classes", File 420 "a regular file")])].

(** A build tool that writes one class file under [target/classes] of its
    working directory and succeeds. *)
Definition sample_child : child_oracle :=
  fun cmd cwd env root =>
    let out := posixpath.normalize (posixpath.components cwd) ++ ["target"; "classes"] in
    match FS.place out (Dir 493 [("A.class", File 420 "cafebabe")]) root with
    | inr r => inr (Completed 0 "BUILD SUCCESS" "", r)
    | inl _ => inr (Completed 1 "" "BUILD FAILURE", root)
    end.

Definition sample_host : world :=
  {| fs := sample_root;
     getcwd := [];
     environ := {[ "PATH" := "/usr/bin"; "HOME" := "/root" ]};
     journal := [];
     launches := [];
     module_file := "/opt/agent/src/execution/local_manager.py";
     run_child := sample_child;
     run_residue := fun _ _ _ root => root |}.

Definition maven_job : LocalManager :=
  {| workspace_path := "/w"; env_config := ∅; build_relative_path := "" |}.

Definition gradle17_job : LocalManager :=
  {| workspace_path := "/w";
     env_config := {[ "build_tool" := PStr "gradle"; "jdk_version" := PInt 17 ]};
     build_relative_path := "" |}.

Definition ant_job : LocalManager :=
  {| workspace_path := "/w";
     env_config := {[ "build_tool" := PStr "ant" ]};
     build_relative_path := "" |}.

Definition distribution_file_job : LocalManager :=
  {| workspace_path := "/w2";
     env_config := {[ "build_tool" := PStr "maven" ]};
     build_relative_path := "" |}.

Definition target_file_job : LocalManager :=
  {| workspace_path := "/w3"; env_config := ∅; build_relative_path := "" |}.

Definition sample_mvn : string := "/data2/donggyu/benchmark/sec_code/tmp/maven/bin/mvn".
Definition sample_gradle : string :=
  "/data2/donggyu/benchmark/sec_code/tmp/gradle/gradle-8.5/bin/gradle".

(** A computation that starts no process, however it ends. *)
Definition keeps_launches {A} (m : M A) : Prop :=
  forall w, launches (snd (m w)) = launches w.

(** The warning of [_validate_tools] for one path. *)
Definition tool_warning (path : string) : level * string :=
  (WARNING, "Tool path not found: " +:+ path +:+
            ". Local execution might fail if this tool is needed.").

(** ** A second sample host

    The first one with the bundled Gradle template installed next to the
    module and a workspace whose [target/classes] is a regular file. *)

Definition extended_root : node :=
  match sample_root with
  | Dir m es =>
      Dir m
        (es ++
         [("opt",
           FS.chain ["agent"; "src"; "execution"; "templates"]
             (Dir 493 [("init.gradle", File 420 "allprojects { }")]));
          ("w4", Dir 493 [("target", Dir 493 [("classes", File 420 "not a tree")])])])
  | File _ _ => sample_root
  end.

Definition extended_host : world :=
  {| fs := extended_root;
     getcwd := [];
     environ := environ sample_host;
     journal := [];
     launches := [];
     module_file := module_file sample_host;
     run_child := sample_child;
     run_residue := fun _ _ _ root => root |}.

Definition lost_workspace_job : LocalManager :=
  {| workspace_path := "/nowhere";
     env_config := {[ "build_tool" := PStr "gradle" ]};
     build_relative_path := "" |}.

Definition file_classes_job : LocalManager :=
  {| workspace_path := "/w4"; env_config := ∅; build_relative_path := "" |}.

Definition absolute_job : LocalManager :=
  {| workspace_path := "/w"; env_config := ∅; build_relative_path := "/w3" |}.

(** ** Path strings on which resolution is exact

    [locate] cancels a [..] against the component before it.  The kernel
    walks the path instead: it fails at a [..] that follows a missing name
    or a regular file, [os.makedirs] creates the directories a later [..]
    leaves again, and [shutil.rmtree] resolves the path once more for its
    last [rmdir].  On a path string without [..] components none of this
    arises and the position [locate] computes is the one the kernel
    reaches; what a removal or a copy leaves behind at a path is stated
    for such strings. *)
Definition plain (p : string) : bool :=
  forallb (fun c => negb (posixpath.is_dotdot c)) (posixpath.components p).

(** The reading of "extraction copies from the first candidate that
    exists" on [_extract_artifacts]: whenever a candidate exists and the
    old [destination/classes] is a directory apart from it, the destination
    holds afterwards what the first existing candidate holds. *)
Definition extraction_copies_first_existing : Prop :=
  forall (self : LocalManager) (out : string) (w w' : world) src S D m' old,
    plain (build_dir self) = true -> plain out = true ->
    find_classes self w = (Ok (Some src), w) ->
    locate w src = Some S ->
    locate w (posixpath.join out ["classes"]) = Some D ->
    FS.lookup D (fs w) = Some (Dir m' old) ->
    ¬ D `prefix_of` S -> ¬ S `prefix_of` D ->
    _extract_artifacts self out w = (Ok tt, w') ->
    stat w' (posixpath.join out ["classes"]) = stat w src.

(** * Properties *)

(** ** Path strings *)

Example join_abs : posixpath.join "/w" ["sub"; "target"] = "/w/sub/target".
Proof. reflexivity. Qed.
Example join_empty_mid : posixpath.join "/w" [""; "target"] = "/w/target".
Proof. reflexivity. Qed.
Example join_restart : posixpath.join "/w" ["/abs"; "target"] = "/abs/target".
Proof. reflexivity. Qed.
Example join_empty_root : posixpath.join "" [""; "build"] = "build".
Proof. reflexivity. Qed.
Example basename_ex : posixpath.basename "/opt/gradle/bin/gradle" = "gradle".
Proof. reflexivity. Qed.
Example dirname_ex : posixpath.dirname "/opt/gradle/bin/gradle" = "/opt/gradle/bin".
Proof. reflexivity. Qed.
Example dirname_root : posixpath.dirname "/mvn" = "/".
Proof. reflexivity. Qed.
Example dirname_plain : posixpath.dirname "mvn" = "".
Proof. reflexivity. Qed.
Example components_ex :
  posixpath.normalize (posixpath.components "/a//b/./c/../d/") = ["a"; "b"; "d"].
Proof. reflexivity. Qed.

Module path_facts.
Import posixpath.

Lemma is_sep_true c : is_sep c = true -> c = "/"%char.
Proof. unfold is_sep, sep. intros H. by apply Ascii.eqb_eq in H. Qed.

Lemma app_nil (b : string) : "" +:+ b = b.
Proof. reflexivity. Qed.

Lemma app_cons c (a b : string) : String c a +:+ b = String c (a +:+ b).
Proof. reflexivity. Qed.

Ltac sapp := rewrite ?app_cons, ?app_nil.

Lemma app_assoc' (a b c : string) : (a +:+ b) +:+ c = a +:+ b +:+ c.
Proof. induction a as [|x a IH]; sapp; [done | by f_equal]. Qed.

Lemma app_empty_r (a : string) : a +:+ "" = a.
Proof. induction a as [|x a IH]; sapp; [done | by f_equal]. Qed.

Lemma fields_nonempty p : fields p <> [].
Proof.
  induction p as [|c r IH]; simpl; [done |].
  destruct (is_sep c); [done |]. by destruct (fields r).
Qed.

Lemma fields_app_sep a b :
  fields (a +:+ String sep b) = fields a ++ fields b.
Proof.
  induction a as [|c r IH]; sapp; simpl.
  - done.
  - rewrite IH. destruct (is_sep c); [done |].
    pose proof (fields_nonempty r) as Hne.
    by destruct (fields r).
Qed.

Lemma fields_no_sep n : no_sep n = true -> fields n = [n].
Proof.
  induction n as [|c r IH]; simpl; [done |].
  intros [Hc Hr]%andb_true_iff. apply negb_true_iff in Hc.
  rewrite Hc, (IH Hr). done.
Qed.

Lemma valid_name_no_sep n : valid_name n = true -> no_sep n = true.
Proof. unfold valid_name. by intros [_ ?]%andb_true_iff. Qed.

Lemma valid_name_not_empty n : valid_name n = true -> is_empty n = false.
Proof.
  unfold valid_name. intros [[[H _]%andb_true_iff _]%andb_true_iff _]%andb_true_iff.
  by apply negb_true_iff.
Qed.

Lemma valid_name_not_dotdot n : valid_name n = true -> is_dotdot n = false.
Proof.
  unfold valid_name. intros [[_ H]%andb_true_iff _]%andb_true_iff.
  by apply negb_true_iff.
Qed.

Lemma valid_name_keep n :
  valid_name n = true -> negb (is_empty n) && negb (is_dot n) = true.
Proof.
  unfold valid_name. by intros [[H _]%andb_true_iff _]%andb_true_iff.
Qed.

Lemma valid_name_not_startswith n : valid_name n = true -> startswith_sep n = false.
Proof.
  intros H. pose proof (valid_name_no_sep _ H) as Hs.
  destruct n as [|c r]; simpl in *; [done |].
  apply andb_true_iff in Hs as [Hc _]. by apply negb_true_iff.
Qed.

Lemma components_app_sep a b :
  components (a +:+ String sep b) = components a ++ components b.
Proof. unfold components. by rewrite fields_app_sep, List.filter_app. Qed.

Lemma components_name n : valid_name n = true -> components n = [n].
Proof.
  intros H. unfold components. rewrite (fields_no_sep _ (valid_name_no_sep _ H)).
  simpl. by rewrite (valid_name_keep _ H).
Qed.

Lemma components_empty : components "" = [].
Proof. reflexivity. Qed.

Lemma endswith_sep_split x : endswith_sep x = true -> exists y, x = y +:+ String sep "".
Proof.
  induction x as [|c r IH]; simpl; [done |].
  destruct r as [|c' r'].
  - intros H%is_sep_true. subst. by exists "".
  - intros H. destruct (IH H) as [y Hy]. exists (String c y). sapp. by rewrite <- Hy.
Qed.

Lemma components_join2 x n :
  valid_name n = true -> components (join2 x n) = components x ++ [n].
Proof.
  intros H. unfold join2. rewrite (valid_name_not_startswith _ H).
  destruct (is_empty x) eqn:Hx; simpl.
  - destruct x; [|done]. sapp. by apply components_name.
  - destruct (endswith_sep x) eqn:He.
    + destruct (endswith_sep_split _ He) as [y ->].
      rewrite app_assoc'. sapp. rewrite !components_app_sep.
      rewrite components_empty, app_nil_r. by rewrite (components_name _ H).
    + change ("/" +:+ n) with (String sep n).
      by rewrite components_app_sep, (components_name _ H).
Qed.

Lemma isabs_app x y : is_empty x = false -> isabs (x +:+ y) = isabs x.
Proof. by destruct x. Qed.

Lemma isabs_join2 x n : valid_name n = true -> isabs (join2 x n) = isabs x.
Proof.
  intros H. unfold join2. rewrite (valid_name_not_startswith _ H).
  destruct x as [|c r].
  - simpl; sapp. by apply valid_name_not_startswith.
  - destruct (is_empty (String c r) || endswith_sep (String c r)); sapp; reflexivity.
Qed.

Lemma is_empty_app x y : is_empty (x +:+ y) = is_empty x && is_empty y.
Proof. by destruct x. Qed.

Lemma join2_not_empty x n : valid_name n = true -> is_empty (join2 x n) = false.
Proof.
  intros H. unfold join2. rewrite (valid_name_not_startswith _ H).
  pose proof (valid_name_not_empty _ H) as Hn.
  destruct (is_empty x || endswith_sep x); rewrite !is_empty_app, ?Hn; simpl;
    by rewrite ?andb_false_r.
Qed.

Lemma normalize_snoc cs n : is_dotdot n = false -> normalize (cs ++ [n]) = normalize cs ++ [n].
Proof.
  intros H. unfold normalize. rewrite fold_left_app. simpl.
  unfold up at 1. rewrite H. done.
Qed.

Lemma join_snoc a p b : join a (p ++ [b]) = join2 (join a p) b.
Proof. unfold join. by rewrite fold_left_app. Qed.

Lemma components_join top ds :
  Forall (fun d => valid_name d = true) ds ->
  components (join top ds) = components top ++ ds.
Proof.
  induction ds as [|d ds IH] using rev_ind; intros Hv.
  - simpl. by rewrite app_nil_r.
  - apply Forall_app in Hv as [Hds Hd]. apply Forall_inv in Hd.
    rewrite join_snoc, (components_join2 _ _ Hd), (IH Hds). by rewrite app_assoc.
Qed.

Lemma isabs_join top ds :
  Forall (fun d => valid_name d = true) ds -> isabs (join top ds) = isabs top.
Proof.
  induction ds as [|d ds IH] using rev_ind; intros Hv; [done |].
  apply Forall_app in Hv as [Hds Hd]. apply Forall_inv in Hd.
  by rewrite join_snoc, (isabs_join2 _ _ Hd), (IH Hds).
Qed.

Lemma normalize_app cs ds :
  Forall (fun d => valid_name d = true) ds ->
  normalize (cs ++ ds) = normalize cs ++ ds.
Proof.
  induction ds as [|d ds IH] using rev_ind; intros Hv.
  - by rewrite !app_nil_r.
  - apply Forall_app in Hv as [Hds Hd]. apply Forall_inv in Hd.
    rewrite app_assoc, normalize_snoc, (IH Hds), <- app_assoc; [done |].
    by apply valid_name_not_dotdot.
Qed.

Lemma join2_tidy r d :
  tidy r = true -> valid_name d = true -> join2 r d = r +:+ String sep d.
Proof.
  unfold tidy, join2. intros [Hr He]%andb_true_iff Hd.
  apply negb_true_iff in Hr, He.
  by rewrite (valid_name_not_startswith _ Hd), Hr, He.
Qed.

Lemma endswith_sep_app r d :
  is_empty d = false -> endswith_sep (r +:+ d) = endswith_sep d.
Proof.
  intros Hd. induction r as [|c r IH]; sapp; [done |].
  simpl. rewrite IH. destruct (r +:+ d) eqn:E; [|done].
  destruct r; [|done]. rewrite app_nil in E. by subst.
Qed.

Lemma no_sep_endswith d : no_sep d = true -> endswith_sep d = false.
Proof.
  induction d as [|c r IH]; simpl; [done |].
  intros [Hc Hr]%andb_true_iff. apply negb_true_iff in Hc.
  destruct r; [done | by apply IH].
Qed.

Lemma tidy_join2 r d : tidy r = true -> valid_name d = true -> tidy (join2 r d) = true.
Proof.
  intros Hr Hd. rewrite (join2_tidy _ _ Hr Hd). unfold tidy.
  rewrite is_empty_app, endswith_sep_app by done.
  apply andb_true_iff in Hr as [Hr _]. apply negb_true_iff in Hr. rewrite Hr. simpl.
  pose proof (no_sep_endswith _ (valid_name_no_sep _ Hd)) as He.
  pose proof (valid_name_not_empty _ Hd) as Hn.
  destruct d as [|c d']; [done |]. simpl in *. by rewrite He.
Qed.

Lemma tidy_join top ds :
  tidy top = true -> Forall (fun d => valid_name d = true) ds ->
  tidy (join top ds) = true.
Proof.
  intros Ht. induction ds as [|d ds IH] using rev_ind; intros Hv; [done |].
  apply Forall_app in Hv as [Hds Hd]. apply Forall_inv in Hd.
  rewrite join_snoc. by apply tidy_join2; [apply IH |].
Qed.

Lemma rfind_no_sep d : no_sep d = true -> rfind_sep d = None.
Proof.
  induction d as [|c r IH]; simpl; [done |].
  intros [Hc Hr]%andb_true_iff. apply negb_true_iff in Hc.
  by rewrite (IH Hr), Hc.
Qed.

Lemma cut_app_sep r d :
  no_sep d = true -> cut (r +:+ String sep d) = S (String.length r).
Proof.
  intros Hd. unfold cut.
  assert (rfind_sep (r +:+ String sep d) = Some (String.length r)) as ->; [|done].
  induction r as [|c r IH]; sapp; simpl.
  - by rewrite (rfind_no_sep _ Hd).
  - by rewrite IH.
Qed.

Lemma drop_app_sep r d : drop (S (String.length r)) (r +:+ String sep d) = d.
Proof. induction r as [|c r IH]; sapp; simpl; [done | apply IH]. Qed.

Lemma take_app_sep r d :
  take (S (String.length r)) (r +:+ String sep d) = r +:+ String sep "".
Proof.
  induction r as [|c r IH]; sapp; [done |].
  change (String c (take (S (String.length r)) (r +:+ String sep d))
          = String c (r +:+ String sep "")).
  by rewrite IH.
Qed.

Lemma basename_app_sep r d : no_sep d = true -> basename (r +:+ String sep d) = d.
Proof. intros Hd. unfold basename. by rewrite (cut_app_sep _ _ Hd), drop_app_sep. Qed.

Lemma all_sep_tidy r : tidy r = true -> all_sep (r +:+ String sep "") = false.
Proof.
  unfold tidy. induction r as [|c r IH]; [done |].
  intros [_ He]%andb_true_iff. apply negb_true_iff in He. sapp. simpl.
  destruct r as [|c' r'].
  - simpl in He. by rewrite He.
  - rewrite IH; [by rewrite andb_false_r |]. simpl in *. by rewrite He.
Qed.

Lemma rstrip_sep_tidy r : tidy r = true -> rstrip_sep (r +:+ String sep "") = r.
Proof.
  unfold tidy. induction r as [|c r IH]; [done |].
  intros [_ He]%andb_true_iff. apply negb_true_iff in He. sapp. simpl.
  destruct r as [|c' r'].
  - simpl in *. by rewrite He.
  - rewrite IH; [by rewrite andb_false_r |]. simpl in *. by rewrite He.
Qed.

Lemma dirname_app_sep r d :
  tidy r = true -> no_sep d = true -> dirname (r +:+ String sep d) = r.
Proof.
  intros Hr Hd. unfold dirname. rewrite (cut_app_sep _ _ Hd), take_app_sep.
  rewrite (all_sep_tidy _ Hr), is_empty_app, andb_false_r. simpl.
  by apply rstrip_sep_tidy.
Qed.

(** What the search loops compute on a walk root: the name of the
    directory itself. *)
Lemma tool_dir_test root exe :
  tidy root = true -> valid_name exe = true ->
  basename (dirname (join root [exe])) = basename root.
Proof.
  intros Hr He. change (join root [exe]) with (join2 root exe).
  rewrite (join2_tidy _ _ Hr He).
  by rewrite (dirname_app_sep _ _ Hr (valid_name_no_sep _ He)).
Qed.

Lemma basename_join_snoc top ds d :
  tidy top = true -> Forall (fun d => valid_name d = true) ds ->
  valid_name d = true -> basename (join top (ds ++ [d])) = d.
Proof.
  intros Ht Hds Hd. rewrite join_snoc.
  rewrite (join2_tidy _ _ (tidy_join _ _ Ht Hds) Hd).
  by apply basename_app_sep, valid_name_no_sep.
Qed.

End path_facts.

(** ** The file system tree *)

Module fs_facts.
Import FS.

Lemma assoc_drop_same c es : assoc c (drop_entry c es) = None.
Proof.
  induction es as [|[k n] es IH]; simpl; [done |].
  destruct (String.eqb k c) eqn:E; simpl; [done |]. by rewrite E.
Qed.

Lemma assoc_drop_ne c d es : c <> d -> assoc d (drop_entry c es) = assoc d es.
Proof.
  intros Hne. induction es as [|[k n] es IH]; simpl; [done |].
  destruct (String.eqb k c) eqn:E; simpl.
  - apply String.eqb_eq in E. subst k.
    by rewrite (proj2 (String.eqb_neq c d) Hne).
  - by rewrite IH.
Qed.

Lemma assoc_on_same c f es : assoc c (on_entry c f es) = f <$> assoc c es.
Proof.
  induction es as [|[k n] es IH]; simpl; [done |].
  destruct (String.eqb k c) eqn:E; simpl; by rewrite E.
Qed.

Lemma assoc_on_ne c d f es : c <> d -> assoc d (on_entry c f es) = assoc d es.
Proof.
  intros Hne. induction es as [|[k n] es IH]; simpl; [done |].
  destruct (String.eqb k c) eqn:E; simpl.
  - apply String.eqb_eq in E. subst k.
    by rewrite (proj2 (String.eqb_neq c d) Hne).
  - by rewrite IH.
Qed.

Lemma assoc_snoc c x es : assoc c es = None -> assoc c (es ++ [(c, x)]) = Some x.
Proof.
  induction es as [|[k n] es IH]; simpl.
  - by rewrite String.eqb_refl.
  - by destruct (String.eqb k c).
Qed.

Lemma lookup_app p q n : lookup (p ++ q) n = lookup p n ≫= lookup q.
Proof.
  revert n. induction p as [|c p IH]; intros n; simpl; [done |].
  destruct n as [|m es]; [done |]. by destruct (assoc c es).
Qed.

Lemma lookup_remove_same p n : p <> [] -> lookup p (remove p n) = None.
Proof.
  revert n. induction p as [|c p IH]; intros n Hp; [done |].
  destruct n as [m d|m es]; [done |]. simpl.
  destruct p as [|c' p'].
  - by rewrite assoc_drop_same.
  - rewrite assoc_on_same. destruct (assoc c es) as [ch|]; [|done].
    simpl. by apply IH.
Qed.

(** Removing a subtree is invisible from every path that is neither inside
    it nor above it. *)
Lemma lookup_remove_other p q n :
  ¬ p `prefix_of` q -> ¬ q `prefix_of` p -> lookup q (remove p n) = lookup q n.
Proof.
  revert q n. induction p as [|c p IH]; intros q n Hpq Hqp.
  - destruct Hpq. apply prefix_nil.
  - destruct q as [|d q]; [destruct Hqp; apply prefix_nil |].
    destruct n as [m x|m es]; [done |].
    destruct (decide (c = d)) as [->|Hne].
    + destruct p as [|c' p'].
      * destruct Hpq. by apply prefix_cons, prefix_nil.
      * simpl. rewrite assoc_on_same. destruct (assoc d es) as [ch|]; [|done].
        simpl. apply IH; intros H; [apply Hpq | apply Hqp]; by apply prefix_cons.
    + simpl. destruct p as [|c' p'].
      * by rewrite assoc_drop_ne.
      * by rewrite assoc_on_ne.
Qed.

Lemma lookup_chain p x : lookup p (chain p x) = Some x.
Proof.
  induction p as [|c p IH]; simpl; [done |]. by rewrite String.eqb_refl.
Qed.

(** A tree put in place is found where it was put. *)
Lemma lookup_place p x n r : place p x n = inr r -> lookup p r = Some x.
Proof.
  revert n r. induction p as [|c p IH]; intros n r; simpl; [done |].
  destruct n as [m d|m es]; [done |].
  destruct (assoc c es) as [ch|] eqn:E.
  - destruct (place p x ch) as [e|ch'] eqn:Hp; [done |].
    intros [= <-]. simpl. rewrite assoc_on_same, E. simpl. by eapply IH.
  - intros [= <-]. simpl. rewrite (assoc_snoc _ _ _ E). apply lookup_chain.
Qed.

(** Once the old subtree is gone, a new one can always take its place. *)
Lemma place_after_remove p x n :
  p <> [] -> is_Some (lookup p n) -> exists r, place p x (remove p n) = inr r.
Proof.
  revert n. induction p as [|c p IH]; intros n Hp Hl; [done |].
  destruct n as [m d|m es]; [by destruct Hl |].
  simpl in Hl. destruct (assoc c es) as [ch|] eqn:E; [|by destruct Hl].
  destruct p as [|c' p'].
  - simpl. rewrite assoc_drop_same. eauto.
  - change (remove (c :: c' :: p') (Dir m es))
      with (Dir m (on_entry c (remove (c' :: p')) es)).
    change (place (c :: c' :: p') x (Dir m (on_entry c (remove (c' :: p')) es)))
      with (match assoc c (on_entry c (remove (c' :: p')) es) with
            | None => inr (Dir m (on_entry c (remove (c' :: p')) es
                                   ++ [(c, chain (c' :: p') x)]))
            | Some ch =>
                match place (c' :: p') x ch with
                | inr ch' => inr (Dir m (on_entry c (fun _ => ch')
                                           (on_entry c (remove (c' :: p')) es)))
                | inl e => inl e
                end
            end).
    rewrite assoc_on_same, E. cbn [fmap option_fmap option_map].
    destruct (IH ch ltac:(done) Hl) as [r Hr]. rewrite Hr. eauto.
Qed.

End fs_facts.

(** ** Path resolution *)

Lemma locate_add_journal l msg w p : locate (add_journal l msg w) p = locate w p.
Proof. reflexivity. Qed.

Lemma locate_add_launch x w p : locate (add_launch x w) p = locate w p.
Proof. reflexivity. Qed.

Lemma locate_set_fs root w p : locate (set_fs root w) p = locate w p.
Proof. reflexivity. Qed.

Lemma stat_add_journal l msg w p : stat (add_journal l msg w) p = stat w p.
Proof. reflexivity. Qed.

Lemma stat_add_launch x w p : stat (add_launch x w) p = stat w p.
Proof. reflexivity. Qed.

Lemma stat_same_tree w w' p :
  fs w' = fs w -> getcwd w' = getcwd w -> stat w' p = stat w p.
Proof. unfold stat, locate. by intros -> ->. Qed.

Lemma join_not_empty x ds :
  Forall (fun d => posixpath.valid_name d = true) ds -> ds <> [] ->
  posixpath.is_empty (posixpath.join x ds) = false.
Proof.
  intros Hv Hne. destruct ds as [|d ds _] using rev_ind; [done |].
  apply Forall_app in Hv as [_ Hd]. apply Forall_inv in Hd.
  rewrite path_facts.join_snoc. by apply path_facts.join2_not_empty.
Qed.

Lemma locate_join w x ds :
  Forall (fun d => posixpath.valid_name d = true) ds -> ds <> [] ->
  locate w (posixpath.join x ds) = Some (anchor w x ++ ds).
Proof.
  intros Hv Hne. unfold locate, anchor.
  rewrite (join_not_empty _ _ Hv Hne).
  rewrite (path_facts.isabs_join _ _ Hv), (path_facts.components_join _ _ Hv).
  by rewrite app_assoc, (path_facts.normalize_app _ _ Hv).
Qed.

Lemma stat_join w x ds :
  Forall (fun d => posixpath.valid_name d = true) ds -> ds <> [] ->
  stat w (posixpath.join x ds) = FS.lookup (anchor w x ++ ds) (fs w).
Proof. intros Hv Hne. unfold stat. by rewrite (locate_join _ _ _ Hv Hne). Qed.

(** ** Cleaning *)

Lemma lookup_sweep_same cs root :
  cs <> [] -> FS.lookup cs (sweep cs root) = unless_dir (FS.lookup cs root).
Proof.
  intros Hcs. unfold sweep.
  destruct (FS.lookup cs root) as [[m d|m es]|] eqn:E; simpl; try done.
  by apply fs_facts.lookup_remove_same.
Qed.

Lemma lookup_sweep_other cs cs' root :
  ¬ cs `prefix_of` cs' -> ¬ cs' `prefix_of` cs ->
  FS.lookup cs' (sweep cs root) = FS.lookup cs' root.
Proof.
  intros H1 H2. unfold sweep.
  destruct (FS.lookup cs root) as [[m d|m es]|]; try done.
  by apply fs_facts.lookup_remove_other.
Qed.



Lemma siblings_apart (B : list string) a b :
  a <> b -> ¬ (B ++ [a]) `prefix_of` (B ++ [b]).
Proof.
  intros Hne [k Hk]. rewrite <- app_assoc in Hk. apply app_inv_head in Hk.
  simpl in Hk. congruence.
Qed.

(** One round of the loop: a directory is removed, a regular file makes
    [rmtree] fail and the failure is logged, a missing path is skipped. *)
Lemma clean_target_dir_spec w p cs :
  locate w p = Some cs -> cs <> [] ->
  exists w',
    clean_target_dir p w = (Ok tt, w') /\
    fs w' = sweep cs (fs w) /\
    getcwd w' = getcwd w /\
    journal w' = journal w ++ sweep_log p (FS.lookup cs (fs w)).
Proof.
  intros Hl Hcs.
  unfold clean_target_dir, bind, os.path_exists, stat, sweep. rewrite Hl.
  destruct (FS.lookup cs (fs w)) as [[m d|m es]|] eqn:E; simpl.
  - unfold bind, log, try_except, shutil.rmtree. simpl.
    rewrite locate_add_journal, Hl, E. simpl.
    eexists. split; [reflexivity |]. simpl. by rewrite <- app_assoc.
  - unfold bind, log, try_except, shutil.rmtree. simpl.
    rewrite locate_add_journal, Hl, E.
    destruct cs as [|c cs']; [done |].
    eexists. split; [reflexivity |]. done.
  - eexists. split; [reflexivity |]. by rewrite app_nil_r.
Qed.

Lemma anchor_same_cwd w w' x : getcwd w' = getcwd w -> anchor w' x = anchor w x.
Proof. unfold anchor. by intros ->. Qed.

Lemma valid_names (ds : list string) :
  forallb posixpath.valid_name ds = true ->
  Forall (fun d => posixpath.valid_name d = true) ds.
Proof. intros H. apply Forall_forall. intros d Hd. rewrite forallb_forall in H. by apply H, list_elem_of_In. Qed.

Ltac names_ok := first [ by apply valid_names | done ].

(** The whole of [_clean_target_on_host], in terms of the tree. *)
Lemma clean_spec (self : LocalManager) (w : world) :
  let B := anchor w (posixpath.join (workspace_path self) [build_relative_path self]) in
  let target := posixpath.join (workspace_path self) [build_relative_path self; "target"] in
  let build := posixpath.join (workspace_path self) [build_relative_path self; "build"] in
  exists w1,
    _clean_target_on_host self w = (Ok tt, w1) /\
    fs w1 = sweep (B ++ ["build"]) (sweep (B ++ ["target"]) (fs w)) /\
    getcwd w1 = getcwd w /\
    journal w1 = journal w
                 ++ sweep_log target (FS.lookup (B ++ ["target"]) (fs w))
                 ++ sweep_log build (FS.lookup (B ++ ["build"]) (fs w)).
Proof.
  intros B target build.
  set (x := posixpath.join (workspace_path self) [build_relative_path self]) in *.
  assert (locate w target = Some (B ++ ["target"])) as Ht.
  { apply (locate_join w x ["target"]); names_ok. }
  destruct (clean_target_dir_spec w target _ Ht) as (wa & Ea & Fa & Ca & Ja).
  { by destruct B. }
  assert (locate wa build = Some (B ++ ["build"])) as Hb.
  { unfold B. rewrite <- (anchor_same_cwd w wa x Ca).
    apply (locate_join wa x ["build"]); names_ok. }
  destruct (clean_target_dir_spec wa build _ Hb) as (w1 & E1 & F1 & C1 & J1).
  { by destruct B. }
  exists w1. split; [|split; [|split]].
  - unfold _clean_target_on_host. fold target build.
    unfold for_each, bind. by rewrite Ea, E1.
  - by rewrite F1, Fa.
  - by rewrite C1, Ca.
  - rewrite J1, Ja, Fa, <- app_assoc. do 2 f_equal.
    rewrite lookup_sweep_other; [done | |]; by apply siblings_apart.
Qed.

Example plain_paths :
  plain "/w/./sub//target" = true /\ plain "" = true /\ plain "rel/...x" = true /\
  plain "/w3/target/.." = false /\ plain "../w" = false.
Proof. vm_compute. tauto. Qed.




(** ** Tool resolution leaves the world alone *)

Lemma resolve_binary_world home exe w :
  exists r, resolve_binary home exe w = (Ok r, w).
Proof.
  unfold resolve_binary, bind, os.path_exists, os.walk, ret.
  destruct (bool_decide _); [eauto |].
  destruct (find _ _) as [[[root ?] ?]|]; eauto.
Qed.

Lemma resolve_binary_same_tree home exe w w' :
  fs w' = fs w -> getcwd w' = getcwd w ->
  fst (resolve_binary home exe w') = fst (resolve_binary home exe w).
Proof.
  intros Hf Hc.
  unfold resolve_binary, bind, os.path_exists, os.walk, ret. cbv beta iota.
  rewrite (stat_same_tree w w' (posixpath.join home ["bin"; exe]) Hf Hc).
  destruct (bool_decide _); [reflexivity |].
  rewrite (stat_same_tree w w' home Hf Hc).
  destruct (find _ _) as [[[root ?] ?]|]; reflexivity.
Qed.

Lemma resolve_binary_eq home exe w w' r :
  fs w' = fs w -> getcwd w' = getcwd w ->
  fst (resolve_binary home exe w) = Ok r ->
  resolve_binary home exe w' = (Ok r, w').
Proof.
  intros Hf Hc Hr. destruct (resolve_binary_world home exe w') as [r' E].
  rewrite E. f_equal.
  rewrite <- Hr, <- (resolve_binary_same_tree home exe w w' Hf Hc). by rewrite E.
Qed.

Lemma resolve_binary_journal home exe w l msg r :
  fst (resolve_binary home exe w) = Ok r ->
  resolve_binary home exe (add_journal l msg w) = (Ok r, add_journal l msg w).
Proof. by apply resolve_binary_eq. Qed.

(** ** The backend switch *)

Lemma py_eq_str_true v s : py_eq_str v s = true <-> v = PStr s.
Proof.
  destruct v; simpl; try (split; [done | congruence]).
  rewrite String.eqb_eq. split; congruence.
Qed.

Lemma py_eq_str_false v s : py_eq_str v s = false <-> v <> PStr s.
Proof.
  rewrite <- py_eq_str_true. by destruct (py_eq_str v s).
Qed.

(** C3. A configured backend other than "maven" and "gradle" ends the run
    step at once: exit code -1 with a message naming the value, no command
    line (the early return precedes every command), and a world changed
    only by one log line, so no file system change and no process. *)
Theorem unknown_backend_is_rejected (self : LocalManager) (w : world) (v : pyval) :
  env_config self !! "build_tool" = Some v ->
  v <> PStr "maven" -> v <> PStr "gradle" ->
  let w' := add_journal INFO "Running build locally..." w in
  prepare self w = (Ok (EarlyReturn (-1) ("Unknown build tool: " +:+ py_str v)), w') /\
  _run_build self w = (Ok (-1, "Unknown build tool: " +:+ py_str v), w') /\
  fs w' = fs w /\ launches w' = launches w.
Proof.
  intros Hv Hm Hg w'.
  assert (prepare self w
          = (Ok (EarlyReturn (-1) ("Unknown build tool: " +:+ py_str v)), w')) as Hp.
  { unfold prepare. rewrite Hv. simpl default.
    rewrite (proj2 (py_eq_str_false v "gradle") Hg).
    rewrite (proj2 (py_eq_str_false v "maven") Hm).
    reflexivity. }
  split; [exact Hp |]. split; [|done].
  unfold _run_build, bind. by rewrite Hp.
Qed.

(** ** The Maven branch of the run step *)

Lemma search_path_text (a b d : string) :
  String.concat ":" ([a] ++ [b]) +:+ ":" +:+ d = a +:+ ":" +:+ b +:+ ":" +:+ d.
Proof.
  change (String.concat ":" ([a] ++ [b])) with (a +:+ ":" +:+ b).
  by rewrite !path_facts.app_assoc'.
Qed.

Lemma prepare_maven_found (self : LocalManager) (w : world) (mvn : string) :
  backend self = PStr "maven" ->
  fst (resolve_binary maven_home "mvn" w) = Ok (Some mvn) ->
  let java_home := select_java_home (jdk_version self) in
  let cmd := maven_command self w mvn in
  prepare self w =
    (Ok (Proceed cmd mvn (build_dir self)
           (child_env (environ w) java_home (posixpath.dirname mvn))),
     announce cmd java_home (build_dir self)
       (add_journal INFO "Running build locally..." w)).
Proof.
  intros Hb Hr java_home cmd.
  unfold prepare. fold (backend self) (jdk_version self). rewrite Hb.
  change (py_eq_str (PStr "maven") "gradle") with false.
  change (py_eq_str (PStr "maven") "maven") with true.
  cbv beta iota.
  unfold bind at 1. unfold log at 1.
  unfold bind at 1. unfold os.environ_copy at 1.
  unfold bind at 1.
  rewrite (resolve_binary_journal maven_home "mvn" w _ _ _ Hr).
  unfold bind, os.path_exists, log, ret. cbv beta iota.
  subst cmd java_home. unfold maven_command, build_dir, child_env, announce.
  rewrite lookup_insert_ne by done.
  rewrite !stat_add_journal, search_path_text.
  destruct (bool_decide (is_Some (stat w (posixpath.join (posixpath.join _ _) _))));
    destruct (bool_decide (is_Some (stat w _))); reflexivity.
Qed.

Lemma prepare_maven_missing (self : LocalManager) (w : world) :
  backend self = PStr "maven" ->
  fst (resolve_binary maven_home "mvn" w) = Ok None ->
  prepare self w =
    (Ok (EarlyReturn (-1) ("Maven binary not found in " +:+ maven_home)),
     add_journal INFO "Running build locally..." w).
Proof.
  intros Hb Hr.
  unfold prepare. fold (backend self) (jdk_version self). rewrite Hb.
  change (py_eq_str (PStr "maven") "gradle") with false.
  change (py_eq_str (PStr "maven") "maven") with true.
  cbv beta iota.
  unfold bind at 1. unfold log at 1.
  unfold bind at 1. unfold os.environ_copy at 1.
  unfold bind at 1.
  by rewrite (resolve_binary_journal maven_home "mvn" w _ _ _ Hr).
Qed.

(** ** The Gradle branch of the run step *)

Lemma prepare_gradle_missing (self : LocalManager) (w : world) :
  backend self = PStr "gradle" ->
  fst (resolve_binary gradle_home "gradle" w) = Ok None ->
  prepare self w =
    (Ok (EarlyReturn (-1) ("Gradle binary not found in " +:+ gradle_home)),
     add_journal INFO "Running build locally..." w).
Proof.
  intros Hb Hr.
  unfold prepare. fold (backend self) (jdk_version self). rewrite Hb.
  change (py_eq_str (PStr "gradle") "gradle") with true.
  cbv beta iota.
  unfold bind at 1. unfold log at 1.
  unfold bind at 1. unfold os.environ_copy at 1.
  unfold bind at 1.
  by rewrite (resolve_binary_journal gradle_home "gradle" w _ _ _ Hr).
Qed.

Lemma prepare_gradle_found (self : LocalManager) (w : world) (gradle : string) :
  backend self = PStr "gradle" ->
  fst (resolve_binary gradle_home "gradle" w) = Ok (Some gradle) ->
  let java_home := select_java_home (jdk_version self) in
  let env := child_env (environ w) java_home (posixpath.dirname gradle) in
  let w0 := add_journal INFO "Running build locally..." w in
  let src := posixpath.join (posixpath.dirname (module_file w)) ["templates"; "init.gradle"] in
  let dst := posixpath.join (workspace_path self) ["init.gradle"] in
  let cmd := [gradle; "compileJava"; "-x"; "test"; "--stacktrace"; "--info"] in
  prepare self w =
    if bool_decide (is_Some (stat w src)) then
      match shutil.copy src dst w0 with
      | (Ok _, w1) =>
          (Ok (Proceed (cmd ++ ["--init-script"; dst]) gradle (build_dir self) env),
           announce (cmd ++ ["--init-script"; dst]) java_home (build_dir self) w1)
      | (Raise e, w1) => (Raise e, w1)
      end
    else
      (Ok (Proceed cmd gradle (build_dir self) env),
       announce cmd java_home (build_dir self) w0).
Proof.
  intros Hb Hr java_home env w0 src dst cmd.
  unfold prepare. fold (backend self) (jdk_version self). rewrite Hb.
  change (py_eq_str (PStr "gradle") "gradle") with true.
  cbv beta iota.
  unfold bind at 1. unfold log at 1.
  unfold bind at 1. unfold os.environ_copy at 1.
  unfold bind at 1.
  rewrite (resolve_binary_journal gradle_home "gradle" w _ _ _ Hr).
  unfold bind at 1. unfold dunder_file at 1.
  unfold bind at 1. unfold os.path_exists at 1.
  cbn [module_file add_journal environ].
  rewrite stat_add_journal. fold src dst w0.
  subst env java_home. unfold child_env, build_dir, announce.
  destruct (bool_decide (is_Some (stat w src))).
  - unfold bind at 1. unfold bind at 1.
    destruct (shutil.copy src dst w0) as [[[]|e] w1]; [|done].
    unfold bind, log, ret. cbv beta iota.
    rewrite lookup_insert_ne by done. by rewrite search_path_text.
  - unfold bind, log, ret. cbv beta iota.
    rewrite lookup_insert_ne by done. by rewrite search_path_text.
Qed.

Lemma prepare_unknown (self : LocalManager) (w : world) :
  backend self <> PStr "gradle" -> backend self <> PStr "maven" ->
  prepare self w =
    (Ok (EarlyReturn (-1) ("Unknown build tool: " +:+ py_str (backend self))),
     add_journal INFO "Running build locally..." w).
Proof.
  intros Hg Hm. unfold prepare. fold (backend self).
  rewrite (proj2 (py_eq_str_false _ "gradle") Hg).
  by rewrite (proj2 (py_eq_str_false _ "maven") Hm).
Qed.

(** ** What the operations leave untouched *)

Lemma copy_world src dst w :
  exists root, snd (shutil.copy src dst w) = set_fs root w.
Proof.
  assert (w = set_fs (fs w) w) as Hw by (by destruct w).
  unfold shutil.copy.
  destruct (shutil.samefile _ _ _); [by exists (fs w) |].
  destruct (stat w src) as [[m d|m es]|]; try by exists (fs w).
  destruct (locate w _) as [cs|]; [|by exists (fs w)].
  destruct (FS.put _ _ _) as [e|root]; [by exists (fs w) | by exists root].
Qed.

(** Whenever the first part of the run step gets as far as a command, the
    environment for the child is the composed one, the working directory is
    the build directory, and the manager's own environment is as before. *)
Lemma prepare_proceed (self : LocalManager) (w w' : world) cmd bin cwd env :
  prepare self w = (Ok (Proceed cmd bin cwd env), w') ->
  env = child_env (environ w) (select_java_home (jdk_version self)) (posixpath.dirname bin)
  /\ cwd = build_dir self
  /\ environ w' = environ w
  /\ launches w' = launches w.
Proof.
  intros Hp.
  destruct (decide (backend self = PStr "gradle")) as [Hg|Hg].
  - destruct (resolve_binary_world gradle_home "gradle" w) as [[gradle|] Hr].
    + rewrite (prepare_gradle_found self w gradle Hg) in Hp by (by rewrite Hr).
      destruct (bool_decide _).
      * destruct (copy_world
                    (posixpath.join (posixpath.dirname (module_file w)) ["templates"; "init.gradle"])
                    (posixpath.join (workspace_path self) ["init.gradle"])
                    (add_journal INFO "Running build locally..." w)) as [root Hroot].
        destruct (shutil.copy _ _ _) as [[[]|e] w1]; [|done].
        simpl in Hroot. subst w1. by injection Hp as <- <- <- <- <-.
      * by injection Hp as <- <- <- <- <-.
    + rewrite (prepare_gradle_missing self w Hg) in Hp by (by rewrite Hr). done.
  - destruct (decide (backend self = PStr "maven")) as [Hm|Hm].
    + destruct (resolve_binary_world maven_home "mvn" w) as [[mvn|] Hr].
      * rewrite (prepare_maven_found self w mvn Hm) in Hp by (by rewrite Hr).
        by injection Hp as <- <- <- <- <-.
      * rewrite (prepare_maven_missing self w Hm) in Hp by (by rewrite Hr). done.
    + by rewrite (prepare_unknown self w Hg Hm) in Hp.
Qed.

Section frame.

Context {A B : Type}.

Lemma keeps_ret (a : A) : keeps_process (ret a).
Proof. by intros w. Qed.

Lemma keeps_raise (e : exn) : keeps_process (@raise A e).
Proof. by intros w. Qed.

Lemma keeps_bind (m : M A) (k : A -> M B) :
  keeps_process m -> (forall a, keeps_process (k a)) -> keeps_process (bind m k).
Proof.
  intros Hm Hk w. unfold bind. specialize (Hm w).
  destruct (m w) as [[a|e] w1]; simpl in *; [|done].
  specialize (Hk a w1). destruct Hm as [<- <-]. done.
Qed.

Lemma keeps_try (m : M A) (h : exn -> M A) :
  keeps_process m -> (forall e, keeps_process (h e)) -> keeps_process (try_except m h).
Proof.
  intros Hm Hh w. unfold try_except. specialize (Hm w).
  destruct (m w) as [[a|e] w1]; simpl in *; [done |].
  specialize (Hh e w1). destruct Hm as [<- <-]. done.
Qed.

Lemma keeps_for_each (xs : list A) (body : A -> M unit) :
  (forall x, keeps_process (body x)) -> keeps_process (for_each xs body).
Proof.
  intros Hb. induction xs as [|x xs IH]; simpl.
  - by intros w.
  - unfold bind. intros w. specialize (Hb x w).
    destruct (body x w) as [[[]|e] w1]; simpl in *; [|done].
    specialize (IH w1). destruct Hb as [<- <-]. done.
Qed.

End frame.

Lemma keeps_when b (m : M unit) : keeps_process m -> keeps_process (when b m).
Proof. intros Hm. destruct b; [done | by intros w]. Qed.

Lemma keeps_log l msg : keeps_process (log l msg).
Proof. by intros w. Qed.

Lemma keeps_path_exists p : keeps_process (os.path_exists p).
Proof. by intros w. Qed.

Lemma keeps_environ_copy : keeps_process os.environ_copy.
Proof. by intros w. Qed.

Lemma keeps_walk p : keeps_process (os.walk p).
Proof. by intros w. Qed.

Lemma keeps_dunder_file : keeps_process dunder_file.
Proof. by intros w. Qed.

Lemma keeps_chmod p mode : keeps_process (os.chmod p mode).
Proof.
  intros w. unfold os.chmod.
  destruct (locate w p) as [cs|]; [|done]. by destruct (FS.lookup cs (fs w)).
Qed.

Lemma keeps_rmtree p : keeps_process (shutil.rmtree p).
Proof.
  intros w. unfold shutil.rmtree.
  destruct (locate w p) as [cs|]; [|done].
  destruct (FS.lookup cs (fs w)) as [[m d|m es]|]; try done. by destruct cs.
Qed.

Lemma keeps_copytree src dst : keeps_process (shutil.copytree src dst).
Proof.
  intros w. unfold shutil.copytree.
  destruct (stat w src) as [[m d|m es]|]; try done.
  destruct (locate w dst) as [cs|]; [|done]. by destruct (FS.place _ _ _).
Qed.

Lemma keeps_copy src dst : keeps_process (shutil.copy src dst).
Proof.
  intros w. destruct (copy_world src dst w) as [root ->]. done.
Qed.

Lemma keeps_subprocess_run cmd cwd env : keeps_process (subprocess_run cmd cwd env).
Proof.
  intros w. unfold subprocess_run. by destruct (run_child w _ _ _ _) as [e|[p root]].
Qed.

Create HintDb frame.
#[local] Hint Resolve keeps_ret keeps_raise keeps_log keeps_path_exists
  keeps_environ_copy keeps_walk keeps_dunder_file keeps_chmod keeps_rmtree
  keeps_copytree keeps_copy keeps_subprocess_run : frame.

Ltac frame_step :=
  first
    [ apply keeps_bind; [|intros ?]
    | apply keeps_try; [|intros ?]
    | apply keeps_for_each; intros ?
    | apply keeps_when
    | match goal with
      | |- keeps_process (if ?b then _ else _) => destruct b
      | |- keeps_process (match ?x with _ => _ end) => destruct x
      end
    | solve [auto with frame]
    | progress cbv beta zeta ].

Ltac frame := repeat frame_step.

Lemma keeps_resolve_binary home exe : keeps_process (resolve_binary home exe).
Proof. unfold resolve_binary. frame. Qed.

Lemma keeps_clean self : keeps_process (_clean_target_on_host self).
Proof. unfold _clean_target_on_host, clean_target_dir. frame. Qed.

Lemma keeps_prepare self : keeps_process (prepare self).
Proof.
  pose proof keeps_resolve_binary.
  unfold prepare. frame.
Qed.

Lemma keeps_run_build self : keeps_process (_run_build self).
Proof.
  pose proof (keeps_prepare self).
  unfold _run_build, start. frame.
Qed.

Lemma keeps_extract self out : keeps_process (_extract_artifacts self out).
Proof. unfold _extract_artifacts, find_classes. frame. Qed.

Lemma keeps_execute self out : keeps_process (execute self out).
Proof.
  pose proof (keeps_clean self). pose proof (keeps_run_build self).
  pose proof (keeps_extract self).
  unfold execute. frame.
Qed.

(** ** Unknown backend: a run on the sample host *)

Lemma unknown_backend_witness :
  _run_build ant_job sample_host
  = (Ok (-1, "Unknown build tool: ant"),
     add_journal INFO "Running build locally..." sample_host).
Proof.
  apply (unknown_backend_is_rejected ant_job sample_host (PStr "ant")).
  - reflexivity.
  - discriminate.
  - discriminate.
Defined.

(** ** The JDK switch *)

Lemma jdk_homes_differ : jdk17_home <> jdk8_home.
Proof. discriminate. Qed.

Example java_home_str_17 : select_java_home (PStr "17") = jdk17_home.
Proof. reflexivity. Qed.
Example java_home_int_17 : select_java_home (PInt 17) = jdk17_home.
Proof. reflexivity. Qed.
Example java_home_str_8 : select_java_home (PStr "8") = jdk8_home.
Proof. reflexivity. Qed.
Example java_home_str_11 : select_java_home (PStr "11") = jdk8_home.
Proof. reflexivity. Qed.
Example java_home_empty : select_java_home (PStr "") = jdk8_home.
Proof. reflexivity. Qed.
Example java_home_malformed : select_java_home (PStr "1.8") = jdk8_home.
Proof. reflexivity. Qed.
Example java_home_padded : select_java_home (PStr " 17") = jdk8_home.
Proof. reflexivity. Qed.
Example java_home_none : select_java_home PNone = jdk8_home.
Proof. reflexivity. Qed.
Example java_home_float : select_java_home (POther "17.0") = jdk8_home.
Proof. reflexivity. Qed.

Lemma jdk_version_unset (self : LocalManager) :
  env_config self !! "jdk_version" = None -> select_java_home (jdk_version self) = jdk8_home.
Proof. unfold jdk_version. by intros ->. Qed.

(** C2. In the environment composed for the child, [JAVA_HOME] is the
    JDK-17 home when the text of the configured version is "17" and the
    JDK-8 home for every other value (an unset version counts as 8); the
    two homes are different. *)
Theorem java_home_two_way_switch (self : LocalManager) (w w' : world) cmd bin cwd env :
  prepare self w = (Ok (Proceed cmd bin cwd env), w') ->
  (py_str (jdk_version self) = "17" -> env !! "JAVA_HOME" = Some jdk17_home) /\
  (py_str (jdk_version self) <> "17" -> env !! "JAVA_HOME" = Some jdk8_home) /\
  (env_config self !! "jdk_version" = None -> env !! "JAVA_HOME" = Some jdk8_home) /\
  jdk17_home <> jdk8_home.
Proof.
  intros Hp. destruct (prepare_proceed self w w' cmd bin cwd env Hp) as (-> & _).
  assert (child_env (environ w) (select_java_home (jdk_version self)) (posixpath.dirname bin)
            !! "JAVA_HOME" = Some (select_java_home (jdk_version self))) as E.
  { unfold child_env. rewrite lookup_insert_ne by done. apply lookup_insert_eq. }
  rewrite E. unfold select_java_home. repeat split.
  - intros ->. reflexivity.
  - intros Hne. by rewrite (proj2 (String.eqb_neq _ _) Hne).
  - intros Hnone. unfold jdk_version. rewrite Hnone. reflexivity.
  - exact jdk_homes_differ.
Qed.

Lemma java_home_two_way_switch_witness :
  child_env (environ sample_host) jdk17_home (posixpath.dirname sample_gradle)
    !! "JAVA_HOME" = Some jdk17_home.
Proof.
  refine (proj1 (java_home_two_way_switch gradle17_job sample_host
                   (announce [sample_gradle; "compileJava"; "-x"; "test"; "--stacktrace"; "--info"]
                      jdk17_home "/w/"
                      (add_journal INFO "Running build locally..." sample_host))
                   [sample_gradle; "compileJava"; "-x"; "test"; "--stacktrace"; "--info"]
                   sample_gradle "/w/" _ _) _).
  - vm_compute. reflexivity.
  - vm_compute. reflexivity.
Defined.

(** ** The child environment *)

(** C8. The environment handed to the child has [JAVA_HOME] set to the
    selected JDK home and a search path made of [JAVA_HOME/bin], the
    directory of the resolved tool and then the inherited search path;
    every other variable is inherited unchanged; it is the environment of
    the only process the run step may start; and the manager's own
    environment is the same after the run step and after [execute]. *)
Theorem child_environment_composed (self : LocalManager) (w w' : world) cmd bin cwd env :
  prepare self w = (Ok (Proceed cmd bin cwd env), w') ->
  let java_home := select_java_home (jdk_version self) in
  env !! "JAVA_HOME" = Some java_home /\
  env !! "PATH" = Some (posixpath.join java_home ["bin"] +:+ ":" +:+ posixpath.dirname bin
                        +:+ ":" +:+ default "" (environ w !! "PATH")) /\
  (forall k, k <> "JAVA_HOME" -> k <> "PATH" -> env !! k = environ w !! k) /\
  (launches (snd (_run_build self w)) = launches w ++ [Launch cmd cwd env]
   \/ launches (snd (_run_build self w)) = launches w) /\
  environ (snd (_run_build self w)) = environ w /\
  (forall out, environ (snd (execute self out w)) = environ w).
Proof.
  intros Hp java_home.
  destruct (prepare_proceed self w w' cmd bin cwd env Hp) as (Ee & Ec & Henv & Hl).
  subst env cwd. fold java_home. unfold child_env. repeat split.
  - rewrite lookup_insert_ne by done. apply lookup_insert_eq.
  - apply lookup_insert_eq.
  - intros k H1 H2. by rewrite !lookup_insert_ne by done.
  - unfold _run_build, bind. rewrite Hp. unfold start, try_except, bind, os.chmod.
    destruct (locate w' bin) as [cs|]; [|right; exact Hl].
    destruct (FS.lookup cs (fs w')); [|right; exact Hl].
    unfold subprocess_run. cbn [fs set_fs run_child].
    left. destruct (run_child w' _ _ _ _) as [e|[p root]]; simpl; by rewrite Hl.
  - apply (keeps_run_build self w).
  - intros out. apply (keeps_execute self out w).
Qed.

Lemma child_environment_composed_witness :
  child_env (environ sample_host) jdk8_home (posixpath.dirname sample_mvn) !! "PATH"
  = Some "/data2/donggyu/benchmark/sec_code/tmp/jdks/temurin8/bin:/data2/donggyu/benchmark/sec_code/tmp/maven/bin:/usr/bin".
Proof.
  refine (proj1 (proj2 (child_environment_composed maven_job sample_host
                   (announce (maven_command maven_job sample_host sample_mvn)
                      jdk8_home "/w/"
                      (add_journal INFO "Running build locally..." sample_host))
                   (maven_command maven_job sample_host sample_mvn)
                   sample_mvn "/w/" _ _))).
  vm_compute. reflexivity.
Defined.

(** ** Defaults of the configuration *)

Lemma prepare_config (self self' : LocalManager) :
  workspace_path self' = workspace_path self ->
  build_relative_path self' = build_relative_path self ->
  backend self' = backend self ->
  jdk_version self' = jdk_version self ->
  prepare self' = prepare self.
Proof.
  intros Hw Hr Hb Hj. unfold prepare.
  fold (backend self) (backend self') (jdk_version self) (jdk_version self').
  by rewrite Hw, Hr, Hb, Hj.
Qed.

Lemma not_unknown_text msg :
  "Maven binary not found in " +:+ maven_home <> "Unknown build tool: " +:+ msg.
Proof. discriminate. Qed.

(** C10. Without a "build_tool" key the run step takes the Maven branch:
    with the Maven binary resolved its first half is ready to start that
    binary with the Maven command line in the build directory, and the run
    step is its second half on that command; with no Maven binary the run
    step answers -1 with the Maven message; the run is the run for "maven",
    and no early return is the unknown-backend answer.  Without a
    "jdk_version" key every environment composed for the child, the one
    the run step hands to its second half, has the JDK-8 home as
    [JAVA_HOME] and its [bin] at the head of the search path; the run is
    the run for 8. *)
Theorem missing_keys_default (self : LocalManager) (w : world) :
  (env_config self !! "build_tool" = None ->
   (forall mvn, fst (resolve_binary maven_home "mvn" w) = Ok (Some mvn) ->
      let settings_xml := posixpath.join (workspace_path self) ["settings.xml"] in
      let cmd :=
        [mvn; "package"; "-DskipTests"; "-T"; "1C"]
        ++ (if bool_decide
                 (is_Some (stat w (posixpath.join (build_dir self) ["distribution"])))
            then ["-pl"; "!distribution"] else [])
        ++ ["-Dskip.npm=true"; "-Dskip.node=true"; "-Dskip.installnodenpm=true"]
        ++ (if bool_decide (is_Some (stat w settings_xml))
            then ["-s"; settings_xml] else []) in
      exists env w',
        prepare self w = (Ok (Proceed cmd mvn (build_dir self) env), w') /\
        _run_build self w = start cmd mvn (build_dir self) env w') /\
   (fst (resolve_binary maven_home "mvn" w) = Ok None ->
      _run_build self w
      = (Ok (-1, "Maven binary not found in " +:+ maven_home),
         add_journal INFO "Running build locally..." w)) /\
   _run_build self w = _run_build (with_config "build_tool" (PStr "maven") self) w /\
   forall code msg w', prepare self w = (Ok (EarlyReturn code msg), w') ->
     code = -1 /\ msg = "Maven binary not found in " +:+ maven_home /\
     forall v, msg <> "Unknown build tool: " +:+ v) /\
  (env_config self !! "jdk_version" = None ->
   (forall cmd bin cwd env w', prepare self w = (Ok (Proceed cmd bin cwd env), w') ->
      env !! "JAVA_HOME" = Some jdk8_home /\
      env !! "PATH"
      = Some (posixpath.join jdk8_home ["bin"] +:+ ":" +:+ posixpath.dirname bin +:+ ":"
              +:+ default "" (environ w !! "PATH")) /\
      _run_build self w = start cmd bin cwd env w') /\
   _run_build self w = _run_build (with_config "jdk_version" (PInt 8) self) w /\
   select_java_home (jdk_version self) = jdk8_home).
Proof.
  split.
  - intros Hnone.
    assert (backend self = PStr "maven") as Hb by (unfold backend; by rewrite Hnone).
    split; [|split; [|split]].
    + intros mvn Hr settings_xml cmd.
      pose proof (prepare_maven_found self w mvn Hb Hr) as Hp. cbv zeta in Hp.
      eexists _, _. split; [exact Hp |].
      unfold _run_build, bind. by rewrite Hp.
    + intros Hr. unfold _run_build, bind.
      by rewrite (prepare_maven_missing self w Hb Hr).
    + unfold _run_build. rewrite (prepare_config self (with_config "build_tool" (PStr "maven") self)); try done.
      * unfold backend, with_config. simpl. rewrite lookup_insert_eq. by rewrite Hnone.
      * unfold jdk_version, with_config. simpl. by rewrite lookup_insert_ne.
    + intros code msg w' Hp.
      destruct (resolve_binary_world maven_home "mvn" w) as [[mvn|] Hr].
      * by rewrite (prepare_maven_found self w mvn Hb) in Hp by (by rewrite Hr).
      * rewrite (prepare_maven_missing self w Hb) in Hp by (by rewrite Hr).
        injection Hp as <- <- <-. repeat split. intros v. apply not_unknown_text.
  - intros Hnone.
    pose proof (jdk_version_unset self Hnone) as Hj.
    split; [|split].
    + intros cmd bin cwd env w' Hp.
      split; [|split].
      * destruct (prepare_proceed self w w' cmd bin cwd env Hp) as (-> & _).
        rewrite Hj. unfold child_env.
        rewrite lookup_insert_ne by done. apply lookup_insert_eq.
      * destruct (prepare_proceed self w w' cmd bin cwd env Hp) as (-> & _).
        rewrite Hj. unfold child_env. apply lookup_insert_eq.
      * unfold _run_build, bind. by rewrite Hp.
    + unfold _run_build. rewrite (prepare_config self (with_config "jdk_version" (PInt 8) self)); try done.
      * unfold backend, with_config. simpl. by rewrite lookup_insert_ne.
      * unfold jdk_version, with_config. simpl. rewrite lookup_insert_eq. by rewrite Hnone.
    + exact Hj.
Qed.

Lemma missing_keys_default_witness :
  (exists env w',
     prepare maven_job sample_host
     = (Ok (Proceed
              [sample_mvn; "package"; "-DskipTests"; "-T"; "1C";
               "-Dskip.npm=true"; "-Dskip.node=true"; "-Dskip.installnodenpm=true"]
              sample_mvn "/w/" env), w')) /\
  select_java_home (jdk_version maven_job) = jdk8_home.
Proof.
  destruct (missing_keys_default maven_job sample_host) as [Hb Hj].
  split.
  - destruct Hb as (Hplan & _); [reflexivity |].
    destruct (Hplan sample_mvn) as (env & w' & Hp & _); [vm_compute; reflexivity |].
    by exists env, w'.
  - apply Hj. reflexivity.
Defined.

(** ** The Maven command line *)

(** C4, as the code has it. With the Maven backend and the binary resolved,
    the command is the binary, [package -DskipTests -T 1C], then
    [-pl !distribution] exactly when something called [distribution]
    exists in the build directory (a directory or any other entry), then
    the three npm/node flags, then [-s] and the path of [settings.xml]
    exactly when something of that name exists in the workspace root. *)
Theorem maven_command_line (self : LocalManager) (w : world) (mvn : string) :
  backend self = PStr "maven" ->
  fst (resolve_binary maven_home "mvn" w) = Ok (Some mvn) ->
  let distribution := stat w (posixpath.join (build_dir self) ["distribution"]) in
  let settings_xml := posixpath.join (workspace_path self) ["settings.xml"] in
  exists env w',
    prepare self w
    = (Ok (Proceed
             ([mvn; "package"; "-DskipTests"; "-T"; "1C"]
              ++ (if bool_decide (is_Some distribution) then ["-pl"; "!distribution"] else [])
              ++ ["-Dskip.npm=true"; "-Dskip.node=true"; "-Dskip.installnodenpm=true"]
              ++ (if bool_decide (is_Some (stat w settings_xml))
                  then ["-s"; settings_xml] else []))
             mvn (build_dir self) env), w').
Proof.
  intros Hb Hr distribution settings_xml.
  rewrite (prepare_maven_found self w mvn Hb Hr). eauto.
Qed.

Lemma maven_command_line_witness :
  exists env w',
    prepare distribution_file_job sample_host
    = (Ok (Proceed
             [sample_mvn; "package"; "-DskipTests"; "-T"; "1C"; "-pl"; "!distribution";
              "-Dskip.npm=true"; "-Dskip.node=true"; "-Dskip.installnodenpm=true"]
             sample_mvn "/w2/" env), w').
Proof.
  apply (maven_command_line distribution_file_job sample_host sample_mvn).
  - reflexivity.
  - vm_compute. reflexivity.
Defined.

Lemma distribution_file_plan :
  let cmd := [sample_mvn; "package"; "-DskipTests"; "-T"; "1C"; "-pl"; "!distribution";
              "-Dskip.npm=true"; "-Dskip.node=true"; "-Dskip.installnodenpm=true"] in
  prepare distribution_file_job sample_host
  = (Ok (Proceed cmd sample_mvn "/w2/"
           (child_env (environ sample_host) jdk8_home (posixpath.dirname sample_mvn))),
     announce cmd jdk8_home "/w2/" (add_journal INFO "Running build locally..." sample_host)).
Proof. vm_compute. reflexivity. Qed.

(** C4, as stated, fails: a regular file called [distribution] in the build
    directory also puts [-pl !distribution] on the command line. *)
Lemma maven_exclusion_without_directory : ~ exclusion_iff_directory.
Proof.
  intros H.
  destruct (proj1 (H distribution_file_job sample_host _ _ _ _ _ eq_refl
                     distribution_file_plan))
    as (m & es & E).
  - simpl. tauto.
  - vm_compute in E. discriminate.
Qed.

(** ** Starting the process *)




(** ** Artifact extraction *)

Lemma path_exists_some w p n : stat w p = Some n -> os.path_exists p w = (Ok true, w).
Proof. unfold os.path_exists. by intros ->. Qed.

Lemma path_exists_none w p : stat w p = None -> os.path_exists p w = (Ok false, w).
Proof. unfold os.path_exists. by intros ->. Qed.

Lemma find_classes_spec (self : LocalManager) (w : world) :
  find_classes self w = (Ok (first_existing w (class_trees self)), w).
Proof.
  unfold find_classes, first_existing, class_trees, build_dir, bind, os.path_exists, ret.
  cbv beta iota. simpl find.
  change (posixpath.join (posixpath.join ?a [?b]) ?l) with (posixpath.join a (b :: l)).
  repeat (destruct (bool_decide _); [reflexivity |]). reflexivity.
Qed.

Lemma class_tree_not_empty (self : LocalManager) (w : world) src :
  first_existing w (class_trees self) = Some src -> truthy (Some src) = true.
Proof.
  intros H. apply find_some in H as [Hin _]. simpl.
  apply negb_true_iff.
  destruct Hin as [<-|[<-|[<-|[]]]]; apply join_not_empty; names_ok.
Qed.

(** The steps of [_extract_artifacts] once the source is chosen. *)
Lemma extract_chosen (self : LocalManager) (out : string) (w : world) src :
  first_existing w (class_trees self) = Some src ->
  let dest := posixpath.join out ["classes"] in
  _extract_artifacts self out w =
    (present <- os.path_exists dest ;;
     when present (shutil.rmtree dest) ;;
     try_except
       (shutil.copytree src dest ;; log INFO ("Artifacts extracted to " +:+ dest))
       (fun e => log ERROR ("Failed to extract artifacts: " +:+ str_exn e)))%py
      (add_journal INFO "Extracting artifacts..." w).
Proof.
  intros Hsrc dest. unfold _extract_artifacts.
  unfold bind at 1. unfold log at 1.
  unfold bind at 1. rewrite find_classes_spec.
  change (first_existing (add_journal INFO "Extracting artifacts..." w) (class_trees self))
    with (first_existing w (class_trees self)).
  rewrite Hsrc. rewrite (class_tree_not_empty self w src Hsrc). reflexivity.
Qed.

(** A selected candidate that is a regular file: the old destination is
    removed first, then the copy fails and the failure is logged. *)
Lemma extract_file_candidate (self : LocalManager) (out : string) (w : world)
    src S D m d m' old :
  let dest := posixpath.join out ["classes"] in
  first_existing w (class_trees self) = Some src ->
  locate w src = Some S -> locate w dest = Some D ->
  FS.lookup S (fs w) = Some (File m d) ->
  FS.lookup D (fs w) = Some (Dir m' old) ->
  ¬ D `prefix_of` S ->
  exists w',
    _extract_artifacts self out w = (Ok tt, w') /\
    stat w' dest = None /\
    journal w' = journal w
                 ++ [(INFO, "Extracting artifacts...");
                     (ERROR, "Failed to extract artifacts: "
                             +:+ str_exn (NotADirectoryError src))].
Proof.
  intros dest Hsrc HS HD Hs Hd HDS.
  assert (¬ S `prefix_of` D) as HSD.
  { intros [k ->]. rewrite fs_facts.lookup_app, Hs in Hd. simpl in Hd.
    by destruct k. }
  assert (D <> []) as HDne by (intros ->; apply HDS, prefix_nil).
  rewrite (extract_chosen self out w src Hsrc). fold dest.
  unfold bind at 1.
  rewrite (path_exists_some _ dest (Dir m' old))
    by (rewrite stat_add_journal; unfold stat; by rewrite HD).
  unfold when, bind at 1, shutil.rmtree.
  rewrite locate_add_journal, HD. cbn [fs add_journal]. rewrite Hd.
  destruct D as [|c D']; [done |].
  unfold try_except, bind, shutil.copytree, stat.
  rewrite locate_set_fs, locate_add_journal, HS. cbn [fs set_fs].
  rewrite (fs_facts.lookup_remove_other _ _ _ HDS HSD), Hs.
  unfold log. eexists. split; [reflexivity |]. split.
  - unfold stat. rewrite locate_add_journal, locate_set_fs, locate_add_journal, HD.
    cbn [fs set_fs add_journal]. by apply fs_facts.lookup_remove_same.
  - cbn [journal add_journal set_fs]. by rewrite <- app_assoc.
Qed.

(** C7, as the code has it. The candidate the code selects is the first
    that exists, as a directory or as any other entry, of [target/classes],
    [build/classes/java/main] and [build/classes/main], so Maven's when
    Maven's and Gradle's both exist; when none exists extraction returns
    normally and the tree is untouched.  For path strings without [..]
    components: when the selected candidate is a directory tree, an
    existing [destination/classes] directory apart from it is removed and
    the destination then holds exactly the selected tree, nothing of its
    old content, and an absent [destination/classes] that can be created
    outside the selected tree receives the tree as well; when the selected
    candidate is a regular file, the old [destination/classes] directory
    is removed all the same and nothing takes its place. *)
Theorem extraction_priority_and_replace (self : LocalManager) (out : string) (w : world) :
  let mvn :=
    posixpath.join (workspace_path self) [build_relative_path self; "target"; "classes"] in
  let gradle :=
    posixpath.join (workspace_path self)
      [build_relative_path self; "build"; "classes"; "java"; "main"] in
  let legacy :=
    posixpath.join (workspace_path self) [build_relative_path self; "build"; "classes"; "main"] in
  let dest := posixpath.join out ["classes"] in
  find_classes self w
  = (Ok (if bool_decide (is_Some (stat w mvn)) then Some mvn
         else if bool_decide (is_Some (stat w gradle)) then Some gradle
         else if bool_decide (is_Some (stat w legacy)) then Some legacy
         else None), w) /\
  (is_Some (stat w mvn) -> is_Some (stat w gradle) ->
   find_classes self w = (Ok (Some mvn), w)) /\
  (stat w mvn = None -> stat w gradle = None -> stat w legacy = None ->
   exists w', _extract_artifacts self out w = (Ok tt, w') /\ fs w' = fs w) /\
  (plain (build_dir self) = true -> plain out = true ->
   (forall src S D m es m' old,
      find_classes self w = (Ok (Some src), w) ->
      locate w src = Some S -> locate w dest = Some D ->
      FS.lookup S (fs w) = Some (Dir m es) ->
      FS.lookup D (fs w) = Some (Dir m' old) ->
      ¬ D `prefix_of` S -> ¬ S `prefix_of` D ->
      exists w', _extract_artifacts self out w = (Ok tt, w') /\
                 stat w' dest = Some (Dir m es)) /\
   (forall src S D m es root,
      find_classes self w = (Ok (Some src), w) ->
      locate w src = Some S -> locate w dest = Some D ->
      FS.lookup S (fs w) = Some (Dir m es) ->
      FS.lookup D (fs w) = None ->
      ¬ S `prefix_of` D ->
      is_Some (FS.lookup (getcwd w) (fs w)) ->
      FS.place D (Dir m es) (fs w) = inr root ->
      exists w', _extract_artifacts self out w = (Ok tt, w') /\
                 stat w' dest = Some (Dir m es)) /\
   (forall src S D m d m' old,
      find_classes self w = (Ok (Some src), w) ->
      locate w src = Some S -> locate w dest = Some D ->
      FS.lookup S (fs w) = Some (File m d) ->
      FS.lookup D (fs w) = Some (Dir m' old) ->
      ¬ D `prefix_of` S ->
      exists w', _extract_artifacts self out w = (Ok tt, w') /\
                 stat w' dest = None)).
Proof.
  intros mvn gradle legacy dest.
  set (chosen := first_existing w (class_trees self)).
  assert (chosen = (if bool_decide (is_Some (stat w mvn)) then Some mvn
            else if bool_decide (is_Some (stat w gradle)) then Some gradle
            else if bool_decide (is_Some (stat w legacy)) then Some legacy
            else None)) as Hchosen by reflexivity.
  rewrite find_classes_spec. fold chosen.
  assert (forall src : string,
            (@Ok (option string) chosen, w) = (Ok (Some src), w) -> chosen = Some src)
    as Hfound by (intros src H; congruence).
  split; [by rewrite Hchosen |]. split; [|split; [|intros _ _; split; [|split]]].
  - intros Hm _. rewrite Hchosen. by rewrite (bool_decide_eq_true_2 _ Hm).
  - intros Hm Hg Hl.
    assert (chosen = None) as Hnone.
    { rewrite Hchosen, Hm, Hg, Hl. reflexivity. }
    unfold _extract_artifacts.
    unfold bind at 1. unfold log at 1.
    unfold bind at 1. rewrite find_classes_spec.
    change (first_existing (add_journal INFO "Extracting artifacts..." w) (class_trees self))
      with chosen.
    rewrite Hnone. simpl. eauto.
  - intros src S D m es m' old Hsrc%Hfound HS HD Hs Hd HDS HSD.
    assert (D <> []) as HDne by (intros ->; apply HDS, prefix_nil).
    rewrite (extract_chosen self out w src Hsrc). fold dest.
    assert (stat w dest = Some (Dir m' old)) as Hstat by (unfold stat; by rewrite HD).
    unfold bind at 1.
    rewrite (path_exists_some _ dest (Dir m' old)) by (by rewrite stat_add_journal).
    unfold when, bind at 1, shutil.rmtree.
    rewrite locate_add_journal, HD. cbn [fs add_journal]. rewrite Hd.
    destruct D as [|d D']; [done |].
    unfold try_except, bind, shutil.copytree, stat.
    rewrite locate_set_fs, locate_add_journal, HS. cbn [fs set_fs].
    rewrite (fs_facts.lookup_remove_other _ _ _ HDS HSD), Hs.
    rewrite locate_set_fs, locate_add_journal, HD. cbn [fs set_fs].
    destruct (fs_facts.place_after_remove (d :: D') (Dir m es) (fs w) HDne) as [root Hroot];
      [by rewrite Hd |].
    rewrite Hroot. unfold log. eexists. split; [reflexivity |].
    unfold stat. rewrite locate_add_journal, locate_set_fs, locate_set_fs, locate_add_journal, HD.
    cbn [fs set_fs add_journal]. by apply (fs_facts.lookup_place _ _ _ _ Hroot).
  - intros src S D m es root Hsrc%Hfound HS HD Hs Hd _ _ Hplace.
    rewrite (extract_chosen self out w src Hsrc). fold dest.
    unfold bind at 1.
    rewrite (path_exists_none _ dest) by (rewrite stat_add_journal; unfold stat; by rewrite HD).
    unfold when, bind at 1, ret.
    unfold try_except, bind, shutil.copytree, stat.
    rewrite locate_add_journal, HS. cbn [fs add_journal]. rewrite Hs.
    rewrite locate_add_journal, HD. cbn [fs add_journal]. rewrite Hplace.
    unfold log. eexists. split; [reflexivity |].
    unfold stat. rewrite locate_add_journal, locate_set_fs, locate_add_journal, HD.
    cbn [fs set_fs add_journal]. by apply (fs_facts.lookup_place _ _ _ _ Hplace).
  - intros src S D m d m' old Hsrc%Hfound HS HD Hs Hd HDS.
    destruct (extract_file_candidate self out w src S D m d m' old Hsrc HS HD Hs Hd HDS)
      as (w' & E & Hgone & _).
    by exists w'.
Qed.

Example clean_sample_workspace :
  let w1 := snd (_clean_target_on_host maven_job sample_host) in
  stat w1 "/w/target" = None /\ stat w1 "/w/build" = None /\
  stat w1 "/w/pom.xml" = Some (File 420 "<project/>").
Proof. vm_compute. tauto. Qed.

Example clean_goes_on_after_a_failure :
  let w1 := snd (_clean_target_on_host target_file_job sample_host) in
  stat w1 "/w3/target" = Some (File 420 "a regular file") /\
  stat w1 "/w3/build" = None /\
  journal w1
  = [(INFO, "Cleaning target directory: /w3/target");
     (WARNING, "Failed to clean target directory: [Errno 20] Not a directory: '/w3/target'");
     (INFO, "Cleaning target directory: /w3/build")].
Proof. vm_compute. tauto. Qed.

Lemma extraction_priority_and_replace_witness :
  find_classes maven_job sample_host = (Ok (Some "/w/target/classes"), sample_host) /\
  exists w', _extract_artifacts maven_job "/out" sample_host = (Ok tt, w') /\
             stat w' "/out/classes" = Some (Dir 493 [("Old.class", File 420 "old")]).
Proof.
  destruct (extraction_priority_and_replace maven_job "/out" sample_host)
    as (_ & Hboth & _ & Hcopy).
  destruct Hcopy as (Hreplace & _); [reflexivity | reflexivity |].
  split.
  - apply Hboth; vm_compute; eauto.
  - apply (Hreplace "/w/target/classes" ["w"; "target"; "classes"] ["out"; "classes"]
             493%N [("Old.class", File 420 "old")]
             493%N [("B.class", File 420 "previous project")]).
    + vm_compute. reflexivity.
    + reflexivity.
    + reflexivity.
    + reflexivity.
    + reflexivity.
    + intros [k Hk]. discriminate.
    + intros [k Hk]. discriminate.
Defined.

Lemma file_candidate_run :
  let r := _extract_artifacts file_classes_job "/out" extended_host in
  fst r = Ok tt /\
  find_classes file_classes_job extended_host
  = (Ok (Some "/w4/target/classes"), extended_host) /\
  stat extended_host "/w4/target/classes" = Some (File 420 "not a tree") /\
  stat extended_host "/out/classes"
  = Some (Dir 493 [("B.class", File 420 "previous project")]) /\
  stat (snd r) "/out/classes" = None.
Proof. vm_compute. tauto. Qed.

(** C7, as stated, fails: a regular file at [target/classes] exists, so it
    is the candidate selected; the old [destination/classes] is removed,
    the copy fails, and the destination holds nothing afterwards. *)
Lemma extraction_from_a_file_copies_nothing : ~ extraction_copies_first_existing.
Proof.
  intros H.
  destruct file_candidate_run as (Hrun & Hfind & Hsrc & Hdest & Hafter).
  assert (stat (snd (_extract_artifacts file_classes_job "/out" extended_host)) "/out/classes"
          = stat extended_host "/w4/target/classes") as Habs.
  { apply (H file_classes_job "/out" extended_host
             (snd (_extract_artifacts file_classes_job "/out" extended_host))
             "/w4/target/classes" ["w4"; "target"; "classes"] ["out"; "classes"]
             493%N [("B.class", File 420 "previous project")]).
    - reflexivity.
    - reflexivity.
    - exact Hfind.
    - reflexivity.
    - reflexivity.
    - reflexivity.
    - intros [k Hk]. discriminate.
    - intros [k Hk]. discriminate.
    - destruct (_extract_artifacts file_classes_job "/out" extended_host) as [o w'].
      simpl in Hrun. by rewrite Hrun. }
  rewrite Hafter, Hsrc in Habs. discriminate.
Qed.

(** ** The orchestrator *)

Lemma execute_returns (self : LocalManager) (out : option string) (w : world) :
  exists ok logs w', execute self out w = (Ok (ok, logs), w').
Proof.
  unfold execute, try_except.
  destruct (bind _ _ w) as [[[ok logs]|e] w']; [eauto |].
  unfold bind, log, ret. eauto.
Qed.

(** Extraction itself raises only through the removal of the old
    destination; when that is a directory or absent it returns normally. *)
Lemma extract_returns (self : LocalManager) (out : string) (w : world) :
  (forall m d, stat w (posixpath.join out ["classes"]) <> Some (File m d)) ->
  exists w', _extract_artifacts self out w = (Ok tt, w').
Proof.
  intros Hdest.
  destruct (first_existing w (class_trees self)) as [src|] eqn:Hsrc.
  - rewrite (extract_chosen self out w src Hsrc).
    set (dest := posixpath.join out ["classes"]) in *.
    assert (locate w dest = Some (anchor w out ++ ["classes"])) as HD
      by (apply (locate_join w out ["classes"]); names_ok).
    assert (forall (m : M unit) w1, exists w2,
              try_except m (fun e => log ERROR ("Failed to extract artifacts: " +:+ str_exn e)) w1
              = (Ok tt, w2)) as Htry.
    { intros m w1. unfold try_except, log. destruct (m w1) as [[[]|e] w2]; eauto. }
    unfold bind at 1, os.path_exists. rewrite stat_add_journal.
    destruct (stat w dest) as [[m d|m es]|] eqn:Hs.
    + by destruct (Hdest m d).
    + simpl. unfold bind at 1, shutil.rmtree. rewrite locate_add_journal, HD.
      cbn [fs add_journal]. unfold stat in Hs. rewrite HD in Hs. rewrite Hs.
      destruct (anchor w out ++ ["classes"]) eqn:E; [by destruct (anchor w out) |].
      apply Htry.
    + simpl. unfold bind at 1, ret. apply Htry.
  - unfold _extract_artifacts.
    unfold bind at 1. unfold log at 1.
    unfold bind at 1. rewrite find_classes_spec.
    change (first_existing (add_journal INFO "Extracting artifacts..." w) (class_trees self))
      with (first_existing w (class_trees self)).
    rewrite Hsrc. simpl. eauto.
Qed.

(** The verdict of the run step stands whenever the old destination is not
    a regular file. *)
Lemma execute_success_stands (self : LocalManager) (out : string) (w w1 w2 : world) logs :
  _clean_target_on_host self w = (Ok tt, w1) ->
  _run_build self w1 = (Ok (0, logs), w2) ->
  (forall m d, stat w2 (posixpath.join out ["classes"]) <> Some (File m d)) ->
  exists w', execute self (Some out) w = (Ok (true, logs), w').
Proof.
  intros Hc Hr Hd. unfold execute, try_except.
  unfold bind at 1. rewrite Hc. unfold bind at 1. rewrite Hr. simpl.
  destruct (posixpath.is_empty out) eqn:He; simpl.
  - unfold bind, ret. eauto.
  - unfold bind. destruct (extract_returns self out w2 Hd) as [w' ->].
    unfold ret. eauto.
Qed.

(** A failed build stays failed: nothing after the run step is executed. *)
Lemma execute_failure_stands (self : LocalManager) (out : option string) (w w1 w2 : world)
    code logs :
  _clean_target_on_host self w = (Ok tt, w1) ->
  _run_build self w1 = (Ok (code, logs), w2) ->
  code <> 0 ->
  execute self out w = (Ok (false, logs), w2).
Proof.
  intros Hc Hr Hne. unfold execute, try_except.
  unfold bind at 1. rewrite Hc. unfold bind at 1. rewrite Hr. simpl.
  by rewrite (proj2 (Z.eqb_neq code 0) Hne).
Qed.

(** The scenario of the specification: a successful Maven build with an
    old [/out/classes] of another project. *)
Example execute_replaces_old_classes :
  let r := execute maven_job (Some "/out") sample_host in
  fst r = Ok (true, "BUILD SUCCESS" +:+ newline) /\
  stat (snd r) "/out/classes" = Some (Dir 493 [("A.class", File 420 "cafebabe")]) /\
  stat (snd r) "/out/classes/B.class" = None.
Proof. vm_compute. tauto. Qed.

(** Without a destination nothing is extracted. *)
Example execute_without_destination :
  let r := execute maven_job None sample_host in
  fst r = Ok (true, "BUILD SUCCESS" +:+ newline) /\
  stat (snd r) "/out/classes" = stat sample_host "/out/classes".
Proof. vm_compute. tauto. Qed.

(** C1 fails on the code. On the sample host the build succeeds with exit
    code 0, but the old [/bad/classes] is a regular file: [rmtree] raises
    [NotADirectoryError] outside the [try] of the extraction step, the
    exception reaches the handler of [execute], and the verdict is
    [False] with the text of the exception as the log. *)
Theorem execute_verdict_flipped_by_extraction :
  (exists w1 w2,
     _clean_target_on_host maven_job sample_host = (Ok tt, w1) /\
     _run_build maven_job w1 = (Ok (0, "BUILD SUCCESS" +:+ newline), w2) /\
     stat w2 "/bad/classes" = Some (File 420 "a regular file") /\
     fst (_extract_artifacts maven_job "/bad" w2)
     = Raise (NotADirectoryError "/bad/classes")) /\
  fst (execute maven_job (Some "/bad") sample_host)
  = Ok (false, "[Errno 20] Not a directory: '/bad/classes'").
Proof.
  split.
  - eexists _, _. split; [vm_compute; reflexivity |].
    split; [vm_compute; reflexivity |]. split; vm_compute; reflexivity.
  - vm_compute. reflexivity.
Qed.

(** ** Walking the install root *)

Lemma node_ind' (P : node -> Prop) :
  (forall m d, P (File m d)) ->
  (forall m es, Forall (fun e => P (snd e)) es -> P (Dir m es)) ->
  forall n, P n.
Proof.
  intros HF HD.
  refine (fix go (n : node) : P n :=
            match n with
            | File m d => HF m d
            | Dir m es =>
                HD m es
                  ((fix all (l : list (string * node)) : Forall (fun e => P (snd e)) l :=
                      match l with
                      | [] => List.Forall_nil _
                      | (k, ch) :: l' =>
                          @List.Forall_cons _ (fun e => P (snd e)) (k, ch) l' (go ch) (all l')
                      end) es)
            end).
Qed.

Lemma assoc_In d ch es : FS.assoc d es = Some ch -> In (d, ch) es.
Proof.
  induction es as [|[k n] es IH]; simpl; [done |].
  destruct (String.eqb k d) eqn:E.
  - apply String.eqb_eq in E. intros [= ->]. left. by subst.
  - intros H. right. by apply IH.
Qed.

Lemma In_assoc d ch es :
  NoDup (List.map fst es) -> In (d, ch) es -> FS.assoc d es = Some ch.
Proof.
  induction es as [|[k n] es IH]; simpl; [done |].
  intros Hnd [Heq|Hin].
  - injection Heq as -> ->. by rewrite String.eqb_refl.
  - apply NoDup_cons in Hnd as [Hk Hnd].
    destruct (String.eqb k d) eqn:E.
    + apply String.eqb_eq in E. subst k. destruct Hk.
      apply list_elem_of_In, in_map_iff. by exists (d, ch).
    + by apply IH.
Qed.

Lemma wf_dir m es :
  FS.wf (Dir m es) = true ->
  NoDup (List.map fst es) /\
  forall d ch, In (d, ch) es -> posixpath.valid_name d = true /\ FS.wf ch = true.
Proof.
  simpl. intros [[Hv Hnd]%andb_true_iff Hwf]%andb_true_iff.
  split; [by apply bool_decide_eq_true in Hnd |].
  intros d ch Hin. rewrite forallb_forall in Hv, Hwf.
  split; [apply (Hv (d, ch) Hin) | apply (Hwf (d, ch) Hin)].
Qed.

Lemma wf_lookup ds : forall n n',
  FS.wf n = true -> FS.lookup ds n = Some n' ->
  FS.wf n' = true /\ Forall (fun d => posixpath.valid_name d = true) ds.
Proof.
  induction ds as [|d ds IH]; intros n n' Hwf Hl.
  - simpl in Hl. injection Hl as <-. by split.
  - destruct n as [m x|m es]; [done |]. simpl in Hl.
    destruct (FS.assoc d es) as [ch|] eqn:E; [|done].
    destruct (wf_dir m es Hwf) as [_ Hall].
    destruct (Hall d ch (assoc_In _ _ _ E)) as [Hd Hch].
    destruct (IH ch n' Hch Hl) as [Hn' Hds]. split; [done | by constructor].
Qed.

Lemma lookup_is_dir ds : forall n m es,
  FS.lookup ds n = Some (Dir m es) -> FS.is_dir n = true.
Proof.
  destruct ds as [|d ds]; intros n m es; simpl.
  - by intros [= ->].
  - by destruct n.
Qed.

Lemma filenames_assoc exe es m d :
  FS.assoc exe es = Some (File m d) -> In exe (FS.filenames es).
Proof.
  intros H%assoc_In. unfold FS.filenames. apply in_map_iff.
  exists (exe, File m d). split; [done |]. apply filter_In. by split.
Qed.

Lemma assoc_filenames exe es :
  NoDup (List.map fst es) -> In exe (FS.filenames es) ->
  exists m d, FS.assoc exe es = Some (File m d).
Proof.
  intros Hnd Hin. unfold FS.filenames in Hin.
  apply in_map_iff in Hin as ([k ch] & Hk & Hf). simpl in Hk. subst k.
  apply filter_In in Hf as [Hin Hdir].
  destruct ch as [m d|m es']; [|done].
  exists m, d. by apply In_assoc.
Qed.

(** Every directory below the top is reported by the walk under the path
    string made of the names that lead to it. *)
Lemma walk_complete ds : forall top n m es,
  FS.lookup ds n = Some (Dir m es) ->
  In (posixpath.join top ds, FS.dirnames es, FS.filenames es) (FS.walk top n).
Proof.
  induction ds as [|d ds IH]; intros top n m es Hl.
  - simpl in Hl. injection Hl as ->. simpl. by left.
  - destruct n as [m0 x|m0 es0]; [done |]. simpl in Hl.
    destruct (FS.assoc d es0) as [ch|] eqn:E; [|done].
    simpl. right. apply in_flat_map. exists (d, ch).
    split; [by apply assoc_In |].
    rewrite (lookup_is_dir ds ch m es Hl).
    apply (IH (posixpath.join top [d]) ch m es Hl).
Qed.

(** Every triple of the walk describes a directory of the tree. *)
Lemma walk_sound n : forall top t,
  FS.wf n = true -> In t (FS.walk top n) ->
  exists ds m es,
    t = (posixpath.join top ds, FS.dirnames es, FS.filenames es) /\
    FS.lookup ds n = Some (Dir m es).
Proof.
  induction n as [m d|m es IH] using node_ind'; intros top t Hwf Hin; [done |].
  simpl in Hin. destruct Hin as [<-|Hin].
  - by exists [], m, es.
  - apply in_flat_map in Hin as ([d ch] & Hd & Hin).
    destruct (FS.is_dir ch) eqn:Hdir; [|done].
    destruct (wf_dir m es Hwf) as [Hnd Hall].
    destruct (Hall d ch Hd) as [_ Hch].
    rewrite Forall_forall in IH.
    destruct (IH (d, ch) (proj2 (list_elem_of_In _ _) Hd) (posixpath.join top [d]) t Hch Hin)
      as (ds & m' & es' & -> & Hl).
    exists (d :: ds), m', es'. split; [done |].
    simpl. by rewrite (In_assoc d ch es Hnd Hd).
Qed.

(** ** Tool resolution *)

Section resolution.

Variables (home exe : string).
Hypothesis home_tidy : posixpath.tidy home = true.
Hypothesis home_not_bin : posixpath.basename home <> "bin".
Hypothesis exe_valid : posixpath.valid_name exe = true.

(** The test of the search loop, on the triple of a directory reached by
    the names [ds]: the executable is among the files and the last name is
    [bin]. *)
Lemma is_tool_dir_iff ds es :
  Forall (fun d => posixpath.valid_name d = true) ds ->
  is_tool_dir exe (posixpath.join home ds, FS.dirnames es, FS.filenames es) = true <->
  In exe (FS.filenames es) /\ exists ds0, ds = ds0 ++ ["bin"].
Proof.
  intros Hds. unfold is_tool_dir.
  rewrite andb_true_iff, bool_decide_eq_true, list_elem_of_In, String.eqb_eq.
  rewrite (path_facts.tool_dir_test _ _ (path_facts.tidy_join _ _ home_tidy Hds) exe_valid).
  split; intros [Hin Hb]; (split; [done |]).
  - destruct ds as [|d ds0 _] using rev_ind; [done |].
    apply Forall_app in Hds as [Hds0 Hd]. apply Forall_inv in Hd.
    rewrite (path_facts.basename_join_snoc _ _ _ home_tidy Hds0 Hd) in Hb.
    exists ds0. by subst d.
  - destruct Hb as [ds0 ->].
    apply Forall_app in Hds as [Hds0 Hd]. apply Forall_inv in Hd.
    by apply path_facts.basename_join_snoc.
Qed.

(** A hit of the loop is a regular file called [exe] in a directory called
    [bin] somewhere below the top. *)
Lemma search_sound n t :
  FS.wf n = true ->
  List.find (is_tool_dir exe) (FS.walk home n) = Some t ->
  exists ds0 m d,
    t.1.1 = posixpath.join home (ds0 ++ ["bin"]) /\
    Forall (fun d => posixpath.valid_name d = true) ds0 /\
    FS.lookup (ds0 ++ ["bin"; exe]) n = Some (File m d).
Proof.
  intros Hwf Hfind. apply find_some in Hfind as [Hin Htest].
  destruct (walk_sound n home t Hwf Hin) as (ds & m & es & -> & Hl).
  destruct (wf_lookup ds n _ Hwf Hl) as [Hwf' Hds].
  apply (is_tool_dir_iff ds es Hds) in Htest as [Hexe [ds0 ->]].
  destruct (wf_dir m es Hwf') as [Hnd _].
  destruct (assoc_filenames exe es Hnd Hexe) as (m' & d' & Ha).
  exists ds0, m', d'. split; [done |].
  split; [by apply Forall_app in Hds as [? _] |].
  change (ds0 ++ ["bin"; exe]) with (ds0 ++ ["bin"] ++ [exe]).
  rewrite app_assoc, fs_facts.lookup_app, Hl. simpl. by rewrite Ha.
Qed.

(** Such a file anywhere below the top makes the loop hit. *)
Lemma search_complete n ds0 m d :
  FS.wf n = true ->
  FS.lookup (ds0 ++ ["bin"; exe]) n = Some (File m d) ->
  List.find (is_tool_dir exe) (FS.walk home n) <> None.
Proof.
  intros Hwf Hl Hnone.
  change (ds0 ++ ["bin"; exe]) with (ds0 ++ ["bin"] ++ [exe]) in Hl.
  rewrite app_assoc, fs_facts.lookup_app in Hl.
  destruct (FS.lookup (ds0 ++ ["bin"]) n) as [[m' d'|m' es]|] eqn:Hdir; try done.
  simpl in Hl. destruct (FS.assoc exe es) as [ch|] eqn:Ha; [|done].
  injection Hl as ->.
  destruct (wf_lookup _ n _ Hwf Hdir) as [_ Hds].
  pose proof (walk_complete _ home n m' es Hdir) as Hin.
  apply (find_none _ _ Hnone) in Hin.
  assert (is_tool_dir exe (posixpath.join home (ds0 ++ ["bin"]), FS.dirnames es, FS.filenames es)
          = true) as Ht.
  { apply (is_tool_dir_iff _ es Hds). split; [by eapply filenames_assoc | by exists ds0]. }
  congruence.
Qed.

Variable w : world.

Lemma stat_home : stat w home = FS.lookup (anchor w home) (fs w).
Proof.
  unfold stat, locate, anchor.
  apply andb_true_iff in home_tidy as [Hne _]. apply negb_true_iff in Hne.
  by rewrite Hne.
Qed.

Lemma resolve_canonical :
  is_Some (stat w (posixpath.join home ["bin"; exe])) ->
  resolve_binary home exe w = (Ok (Some (posixpath.join home ["bin"; exe])), w).
Proof.
  intros H. unfold resolve_binary, bind, os.path_exists.
  by rewrite (bool_decide_eq_true_2 _ H).
Qed.

Lemma resolve_searched :
  stat w (posixpath.join home ["bin"; exe]) = None ->
  resolve_binary home exe w =
    (Ok (match List.find (is_tool_dir exe)
                 (match stat w home with Some n => FS.walk home n | None => [] end) with
         | Some (root, _, _) => Some (posixpath.join root [exe])
         | None => None
         end), w).
Proof.
  intros H. unfold resolve_binary, bind, os.path_exists, os.walk, ret. rewrite H.
  rewrite bool_decide_eq_false_2 by (by intros [? ?]).
  by destruct (find _ _) as [[[root ?] ?]|].
Qed.

Lemma resolve_walk_hit ds m d :
  stat w (posixpath.join home ["bin"; exe]) = None ->
  (forall n, FS.lookup (anchor w home) (fs w) = Some n -> FS.wf n = true) ->
  FS.lookup (anchor w home ++ ds ++ ["bin"; exe]) (fs w) = Some (File m d) ->
  exists p ds' m' d',
    resolve_binary home exe w = (Ok (Some p), w) /\
    posixpath.basename p = exe /\
    posixpath.basename (posixpath.dirname p) = "bin" /\
    locate w p = Some (anchor w home ++ ds' ++ ["bin"; exe]) /\
    stat w p = Some (File m' d').
Proof.
  intros Hcanon Hwf Hl.
  rewrite fs_facts.lookup_app in Hl.
  destruct (FS.lookup (anchor w home) (fs w)) as [n|] eqn:Hn; [|done]. simpl in Hl.
  specialize (Hwf n eq_refl).
  rewrite (resolve_searched Hcanon), stat_home, Hn.
  destruct (find _ _) as [[[root dirs] files]|] eqn:Hfind;
    [|by destruct (search_complete n ds m d Hwf Hl)].
  destruct (search_sound n _ Hwf Hfind) as (ds' & m' & d' & Hroot & Hds' & Hfile).
  simpl in Hroot. subst root.
  assert (Forall (fun d => posixpath.valid_name d = true) (ds' ++ ["bin"])) as Hdsb.
  { apply Forall_app. split; [done |]. by constructor. }
  assert (posixpath.join (posixpath.join home (ds' ++ ["bin"])) [exe]
          = posixpath.join home ((ds' ++ ["bin"]) ++ [exe])) as Ejoin
    by (symmetry; exact (path_facts.join_snoc home (ds' ++ ["bin"]) exe)).
  assert (locate w (posixpath.join home ((ds' ++ ["bin"]) ++ [exe]))
          = Some (anchor w home ++ ds' ++ ["bin"; exe])) as Hloc.
  { rewrite (locate_join w home ((ds' ++ ["bin"]) ++ [exe])).
    - by rewrite <- app_assoc.
    - apply Forall_app. split; [done |]. by constructor.
    - by destruct ds'. }
  exists (posixpath.join (posixpath.join home (ds' ++ ["bin"])) [exe]), ds', m', d'.
  split; [done |]. split; [|split; [|split]].
  - rewrite Ejoin. by apply path_facts.basename_join_snoc.
  - rewrite (path_facts.tool_dir_test _ _ (path_facts.tidy_join _ _ home_tidy Hdsb) exe_valid).
    by apply path_facts.basename_join_snoc.
  - by rewrite Ejoin.
  - unfold stat. rewrite Ejoin, Hloc, fs_facts.lookup_app, Hn. done.
Qed.

Lemma resolve_walk_miss :
  stat w (posixpath.join home ["bin"; exe]) = None ->
  (forall n, FS.lookup (anchor w home) (fs w) = Some n -> FS.wf n = true) ->
  (forall ds m d,
     FS.lookup (anchor w home ++ ds ++ ["bin"; exe]) (fs w) <> Some (File m d)) ->
  resolve_binary home exe w = (Ok None, w).
Proof.
  intros Hcanon Hwf Hnone.
  rewrite (resolve_searched Hcanon), stat_home.
  destruct (FS.lookup (anchor w home) (fs w)) as [n|] eqn:Hn; [|done].
  destruct (find _ _) as [[[root dirs] files]|] eqn:Hfind; [|done].
  destruct (search_sound n _ (Hwf n eq_refl) Hfind) as (ds' & m' & d' & _ & _ & Hfile).
  destruct (Hnone ds' m' d'). by rewrite fs_facts.lookup_app, Hn.
Qed.

End resolution.

Lemma installs_sound name home exe label :
  In (name, home, exe, label) installs ->
  posixpath.tidy home = true /\ posixpath.basename home <> "bin" /\
  posixpath.valid_name exe = true.
Proof.
  intros [[= <- <- <- <-]|[[= <- <- <- <-]|[]]]; repeat split; discriminate.
Qed.

Lemma run_build_tool_missing (self : LocalManager) (w : world) name home exe label :
  In (name, home, exe, label) installs ->
  backend self = PStr name ->
  resolve_binary home exe w = (Ok None, w) ->
  _run_build self w
  = (Ok (-1, label +:+ " binary not found in " +:+ home),
     add_journal INFO "Running build locally..." w).
Proof.
  intros [[= <- <- <- <-]|[[= <- <- <- <-]|[]]] Hb Hr; unfold _run_build, bind.
  - by rewrite (prepare_gradle_missing self w Hb) by (by rewrite Hr).
  - by rewrite (prepare_maven_missing self w Hb) by (by rewrite Hr).
Qed.

(** C5. For each of the two tools: the binary at [home/bin/exe] is taken
    when that path exists; when it does not, and the install tree is a
    proper tree, a regular file called [exe] inside a directory called
    [bin] at any depth below the install root makes resolution return the
    path of such a file (one whose name is [exe], whose directory is named
    [bin], and which lies below the root); and when there is no such file,
    resolution finds nothing and the run step answers -1 with a message
    that names the install root. *)
Theorem tool_resolution (self : LocalManager) (w : world) (name home exe label : string) :
  In (name, home, exe, label) installs ->
  let canonical := posixpath.join home ["bin"; exe] in
  let top := anchor w home in
  (is_Some (stat w canonical) ->
   resolve_binary home exe w = (Ok (Some canonical), w)) /\
  (stat w canonical = None ->
   (forall n, FS.lookup top (fs w) = Some n -> FS.wf n = true) ->
   (forall ds m d,
      FS.lookup (top ++ ds ++ ["bin"; exe]) (fs w) = Some (File m d) ->
      exists p ds' m' d',
        resolve_binary home exe w = (Ok (Some p), w) /\
        posixpath.basename p = exe /\
        posixpath.basename (posixpath.dirname p) = "bin" /\
        locate w p = Some (top ++ ds' ++ ["bin"; exe]) /\
        stat w p = Some (File m' d')) /\
   ((forall ds m d, FS.lookup (top ++ ds ++ ["bin"; exe]) (fs w) <> Some (File m d)) ->
    resolve_binary home exe w = (Ok None, w) /\
    (backend self = PStr name ->
     _run_build self w
     = (Ok (-1, label +:+ " binary not found in " +:+ home),
        add_journal INFO "Running build locally..." w)))).
Proof.
  intros Hin canonical top.
  destruct (installs_sound name home exe label Hin) as (Htidy & Hbase & Hexe).
  split; [|intros Hcanon Hwf; split].
  - by apply resolve_canonical.
  - intros ds m d Hl. by apply (resolve_walk_hit home exe Htidy Hbase Hexe w ds m d).
  - intros Hnone.
    pose proof (resolve_walk_miss home exe Htidy Hbase Hexe w Hcanon Hwf Hnone) as Hr.
    split; [exact Hr |]. intros Hb.
    by apply (run_build_tool_missing self w name home exe label).
Qed.

Lemma tool_resolution_witness :
  exists p ds' m' d',
    resolve_binary gradle_home "gradle" sample_host = (Ok (Some p), sample_host) /\
    posixpath.basename p = "gradle" /\
    posixpath.basename (posixpath.dirname p) = "bin" /\
    locate sample_host p
    = Some (anchor sample_host gradle_home ++ ds' ++ ["bin"; "gradle"]) /\
    stat sample_host p = Some (File m' d').
Proof.
  destruct (tool_resolution gradle17_job sample_host "gradle" gradle_home "gradle" "Gradle")
    as (_ & Hsearch).
  - simpl. tauto.
  - destruct Hsearch as [Hhit _].
    + reflexivity.
    + intros n Hn. vm_compute in Hn. injection Hn as <-. reflexivity.
    + apply (Hhit ["gradle-8.5"] 420%N "#!/bin/sh"). reflexivity.
Defined.

Example nested_gradle_is_found :
  resolve_binary gradle_home "gradle" sample_host = (Ok (Some sample_gradle), sample_host).
Proof. vm_compute. reflexivity. Qed.

(** * Further properties of the manager *)

(** ** More on the tree *)

Lemma lookup_place_other p : forall q x n r,
  FS.place p x n = inr r ->
  ¬ p `prefix_of` q -> ¬ q `prefix_of` p -> FS.lookup q r = FS.lookup q n.
Proof.
  induction p as [|c p IH]; intros q x n r Hp Hpq Hqp; [done |].
  destruct q as [|d q]; [destruct Hqp; apply prefix_nil |].
  destruct n as [m y|m es]; [done |]. simpl in Hp.
  destruct (FS.assoc c es) as [ch|] eqn:E.
  - destruct (FS.place p x ch) as [e|ch'] eqn:Hch; [done |].
    injection Hp as <-. simpl.
    destruct (decide (c = d)) as [->|Hne].
    + rewrite fs_facts.assoc_on_same, E. simpl.
      apply (IH q x ch ch' Hch); intros H; [apply Hpq | apply Hqp]; by apply prefix_cons.
    + by rewrite fs_facts.assoc_on_ne.
  - injection Hp as <-. simpl.
    destruct (decide (c = d)) as [->|Hne].
    + rewrite (fs_facts.assoc_snoc _ _ _ E), E.
      assert (¬ p `prefix_of` q) as H1 by (intros H; apply Hpq; by apply prefix_cons).
      assert (¬ q `prefix_of` p) as H2 by (intros H; apply Hqp; by apply prefix_cons).
      clear -H1 H2. revert q H1 H2.
      induction p as [|c p IH]; intros q H1 H2; [destruct H1; apply prefix_nil |].
      destruct q as [|d q]; [destruct H2; apply prefix_nil |]. simpl.
      destruct (String.eqb c d) eqn:Ecd; [|done].
      apply String.eqb_eq in Ecd. subst d.
      apply IH; intros H; [apply H1 | apply H2]; by apply prefix_cons.
    + assert (forall l, FS.assoc d (l ++ [(c, FS.chain p x)]) = FS.assoc d l) as Hsn.
      { induction l as [|[k y] l IHl]; simpl.
        - by rewrite (proj2 (String.eqb_neq c d) Hne).
        - by destruct (String.eqb k d). }
      by rewrite Hsn.
Qed.

Lemma lookup_put p : forall x n r, FS.put p x n = inr r -> FS.lookup p r = Some x.
Proof.
  induction p as [|c p IH]; intros x n r; simpl.
  - destruct n; [by intros [= <-] | done].
  - destruct n as [m y|m es]; [done |].
    destruct (FS.assoc c es) as [ch|] eqn:E.
    + destruct (FS.put p x ch) as [e|ch'] eqn:Hp; [done |].
      intros [= <-]. simpl. rewrite fs_facts.assoc_on_same, E. simpl. by eapply IH.
    + destruct p; [|done]. intros [= <-]. simpl.
      by rewrite (fs_facts.assoc_snoc _ _ _ E).
Qed.


(** ** Operations that start no process *)

Section launch_frame.

Context {A B : Type}.

Lemma launches_ret (a : A) : keeps_launches (ret a).
Proof. by intros w. Qed.

Lemma launches_bind (m : M A) (k : A -> M B) :
  keeps_launches m -> (forall a, keeps_launches (k a)) -> keeps_launches (bind m k).
Proof.
  intros Hm Hk w. unfold bind. specialize (Hm w).
  destruct (m w) as [[a|e] w1]; simpl in *; [|done].
  by rewrite (Hk a w1).
Qed.

Lemma launches_try (m : M A) (h : exn -> M A) :
  keeps_launches m -> (forall e, keeps_launches (h e)) -> keeps_launches (try_except m h).
Proof.
  intros Hm Hh w. unfold try_except. specialize (Hm w).
  destruct (m w) as [[a|e] w1]; simpl in *; [done |].
  by rewrite (Hh e w1).
Qed.

Lemma launches_for_each (xs : list A) (body : A -> M unit) :
  (forall x, keeps_launches (body x)) -> keeps_launches (for_each xs body).
Proof.
  intros Hb. induction xs as [|x xs IH]; simpl; [by intros w |].
  unfold bind. intros w. specialize (Hb x w).
  destruct (body x w) as [[[]|e] w1]; simpl in *; [|done].
  by rewrite (IH w1).
Qed.

End launch_frame.

Lemma launches_when b (m : M unit) : keeps_launches m -> keeps_launches (when b m).
Proof. intros Hm. destruct b; [done | by intros w]. Qed.

Lemma launches_log l msg : keeps_launches (log l msg).
Proof. by intros w. Qed.

Lemma launches_path_exists p : keeps_launches (os.path_exists p).
Proof. by intros w. Qed.

Lemma launches_environ_copy : keeps_launches os.environ_copy.
Proof. by intros w. Qed.

Lemma launches_walk p : keeps_launches (os.walk p).
Proof. by intros w. Qed.

Lemma launches_dunder_file : keeps_launches dunder_file.
Proof. by intros w. Qed.

Lemma launches_chmod p mode : keeps_launches (os.chmod p mode).
Proof.
  intros w. unfold os.chmod.
  destruct (locate w p) as [cs|]; [|done]. by destruct (FS.lookup cs (fs w)).
Qed.

Lemma launches_rmtree p : keeps_launches (shutil.rmtree p).
Proof.
  intros w. unfold shutil.rmtree.
  destruct (locate w p) as [cs|]; [|done].
  destruct (FS.lookup cs (fs w)) as [[m d|m es]|]; try done. by destruct cs.
Qed.

Lemma launches_copytree src dst : keeps_launches (shutil.copytree src dst).
Proof.
  intros w. unfold shutil.copytree.
  destruct (stat w src) as [[m d|m es]|]; try done.
  destruct (locate w dst) as [cs|]; [|done]. by destruct (FS.place _ _ _).
Qed.

Lemma launches_copy src dst : keeps_launches (shutil.copy src dst).
Proof. intros w. destruct (copy_world src dst w) as [root ->]. done. Qed.

Create HintDb launch_frame.
#[local] Hint Resolve launches_ret launches_log launches_path_exists
  launches_environ_copy launches_walk launches_dunder_file launches_chmod
  launches_rmtree launches_copytree launches_copy : launch_frame.

Ltac launch_frame_step :=
  first
    [ apply launches_bind; [|intros ?]
    | apply launches_try; [|intros ?]
    | apply launches_for_each; intros ?
    | apply launches_when
    | match goal with
      | |- keeps_launches (if ?b then _ else _) => destruct b
      | |- keeps_launches (match ?x with _ => _ end) => destruct x
      end
    | solve [auto with launch_frame]
    | progress cbv beta zeta ].

Ltac launch_frame := repeat launch_frame_step.

Lemma launches_resolve_binary home exe : keeps_launches (resolve_binary home exe).
Proof. unfold resolve_binary. launch_frame. Qed.

Lemma launches_validate_tools : keeps_launches _validate_tools.
Proof. unfold _validate_tools. launch_frame. Qed.

Lemma launches_clean self : keeps_launches (_clean_target_on_host self).
Proof. unfold _clean_target_on_host, clean_target_dir. launch_frame. Qed.

Lemma launches_prepare self : keeps_launches (prepare self).
Proof. pose proof launches_resolve_binary. unfold prepare. launch_frame. Qed.

Lemma launches_extract self out : keeps_launches (_extract_artifacts self out).
Proof. unfold _extract_artifacts, find_classes. launch_frame. Qed.

(** ** Construction *)

Lemma validate_loop (xs : list string) : forall w,
  exists w',
    for_each xs (fun path =>
      present <- os.path_exists path ;;
      when (negb present)
        (log WARNING ("Tool path not found: " +:+ path +:+
                      ". Local execution might fail if this tool is needed."))) w
    = (Ok tt, w') /\
    fs w' = fs w /\ getcwd w' = getcwd w /\
    journal w' = journal w
                 ++ List.map tool_warning
                      (List.filter (fun p => negb (bool_decide (is_Some (stat w p)))) xs).
Proof.
  induction xs as [|x xs IH]; intros w.
  - exists w. simpl. by rewrite app_nil_r.
  - cbn [for_each]. unfold bind at 1. unfold bind at 1, os.path_exists at 1.
    cbn [List.filter].
    destruct (bool_decide (is_Some (stat w x))); cbn [negb when].
    + unfold ret at 1. destruct (IH w) as (w' & E & Hf & Hc & Hj). exists w'. by rewrite E.
    + unfold log at 1.
      destruct (IH (add_journal WARNING
                      ("Tool path not found: " +:+ x +:+
                       ". Local execution might fail if this tool is needed.") w))
        as (w' & E & Hf & Hc & Hj).
      exists w'. rewrite E. repeat split; try done.
      rewrite Hj. cbn [journal add_journal List.map]. rewrite <- app_assoc.
      f_equal.
Qed.

(** X1. Constructing a manager never fails, whatever is installed: it
    returns the manager with the three values it was given, leaves the file
    system alone, and logs one warning for each of the four tool paths
    (JDK 8, JDK 17, Maven, Gradle, in that order) that does not exist. *)
Theorem init_warns_and_succeeds (ws : string) (cfg : gmap string pyval) (rel : string)
    (w : world) :
  exists w',
    __init__ ws cfg rel w
    = (Ok {| workspace_path := ws; env_config := cfg; build_relative_path := rel |}, w') /\
    fs w' = fs w /\
    journal w' = journal w
                 ++ List.map tool_warning
                      (List.filter (fun p => negb (bool_decide (is_Some (stat w p))))
                         [jdk8_home; jdk17_home; maven_home; gradle_home]).
Proof.
  destruct (validate_loop [jdk8_home; jdk17_home; maven_home; gradle_home] w)
    as (w' & E & Hf & _ & Hj).
  exists w'. split; [|by split].
  unfold __init__, bind, _validate_tools. by rewrite E.
Qed.

Example init_on_empty_disk :
  journal (snd (__init__ "/w" ∅ "" (set_fs (Dir 493 []) sample_host)))
  = [tool_warning jdk8_home; tool_warning jdk17_home;
     tool_warning maven_home; tool_warning gradle_home].
Proof. vm_compute. reflexivity. Qed.

(** ** What cleaning leaves alone *)

(** X6. Cleaning touches nothing but [target] and [build] of the build
    directory: every path that lies neither inside nor above one of the
    two holds after cleaning what it held before. *)
Theorem clean_spares_the_rest (self : LocalManager) (w : world) (q : list string) :
  let B := anchor w (build_dir self) in
  ¬ (B ++ ["target"]) `prefix_of` q -> ¬ q `prefix_of` (B ++ ["target"]) ->
  ¬ (B ++ ["build"]) `prefix_of` q -> ¬ q `prefix_of` (B ++ ["build"]) ->
  FS.lookup q (fs (snd (_clean_target_on_host self w))) = FS.lookup q (fs w).
Proof.
  intros B Ht1 Ht2 Hb1 Hb2.
  destruct (clean_spec self w) as (w1 & E & Hf & _).
  rewrite E. simpl. rewrite Hf. fold (build_dir self). fold B.
  by rewrite !lookup_sweep_other.
Qed.

Lemma clean_spares_the_rest_witness :
  FS.lookup ["w"; "pom.xml"] (fs (snd (_clean_target_on_host maven_job sample_host)))
  = Some (File 420 "<project/>").
Proof.
  rewrite (clean_spares_the_rest maven_job sample_host ["w"; "pom.xml"]).
  - reflexivity.
  - intros [k Hk]. vm_compute in Hk. discriminate.
  - intros [k Hk]. vm_compute in Hk. discriminate.
  - intros [k Hk]. vm_compute in Hk. discriminate.
  - intros [k Hk]. vm_compute in Hk. discriminate.
Defined.

(** ** Paths of the build directory *)

Lemma join_absolute ws rel l :
  posixpath.startswith_sep rel = true ->
  posixpath.join ws (rel :: l) = posixpath.join rel l.
Proof. intros H. unfold posixpath.join. simpl. unfold posixpath.join2 at 2. by rewrite H. Qed.

(** X11. An absolute [build_relative_path] replaces the workspace root:
    the build directory is that path itself, and cleaning and the search
    for class trees work there, whatever [workspace_path] is. *)
Theorem absolute_build_path_ignores_workspace (ws ws' : string)
    (cfg cfg' : gmap string pyval) (rel : string) :
  posixpath.startswith_sep rel = true ->
  let self := {| workspace_path := ws; env_config := cfg; build_relative_path := rel |} in
  let other := {| workspace_path := ws'; env_config := cfg'; build_relative_path := rel |} in
  build_dir self = rel /\
  _clean_target_on_host self = _clean_target_on_host other /\
  find_classes self = find_classes other /\
  class_trees self = [posixpath.join rel ["target"; "classes"];
                      posixpath.join rel ["build"; "classes"; "java"; "main"];
                      posixpath.join rel ["build"; "classes"; "main"]].
Proof.
  intros H self other. subst self other. repeat split.
  - unfold build_dir. cbn [workspace_path build_relative_path].
    by rewrite (join_absolute ws rel []).
  - unfold _clean_target_on_host. cbn [workspace_path build_relative_path].
    by rewrite !(join_absolute ws rel), !(join_absolute ws' rel).
  - unfold find_classes. cbn [workspace_path build_relative_path].
    by rewrite !(join_absolute ws rel), !(join_absolute ws' rel).
  - unfold class_trees, build_dir. cbn [workspace_path build_relative_path].
    by rewrite (join_absolute ws rel []).
Qed.

Lemma absolute_build_path_ignores_workspace_witness :
  build_dir absolute_job = "/w3" /\
  stat (snd (_clean_target_on_host absolute_job sample_host)) "/w3/build" = None /\
  stat (snd (_clean_target_on_host absolute_job sample_host)) "/w/build"
  = stat sample_host "/w/build".
Proof.
  split.
  - apply (absolute_build_path_ignores_workspace "/w" "/w" ∅ ∅ "/w3"). reflexivity.
  - vm_compute. split; reflexivity.
Defined.

(** ** Starting the process, in detail *)



Example start_on_sample :
  let r := start [sample_mvn; "package"] sample_mvn "/w2/" ∅ sample_host in
  fst r = Ok (0, "BUILD SUCCESS" +:+ newline) /\
  stat (snd r) sample_mvn = Some (File 493 "#!/bin/sh") /\
  stat sample_host sample_mvn = Some (File 420 "#!/bin/sh").
Proof. vm_compute. tauto. Qed.

(** ** The Gradle branch, in detail *)

Lemma start_returns cmd (bin cwd : string) (env : gmap string string) (w : world) :
  exists code logs w', start cmd bin cwd env w = (Ok (code, logs), w').
Proof.
  unfold start, try_except, bind.
  destruct (os.chmod bin 493 w) as [[[]|e] w1].
  - unfold subprocess_run.
    destruct (run_child w1 cmd cwd env (fs w1)) as [e|[process root]]; simpl; eauto.
  - simpl. eauto.
Qed.

Lemma copy_onto_file src dst w w1 m d :
  shutil.copy src dst w = (Ok tt, w1) ->
  stat w src = Some (File m d) ->
  (forall m' es, stat w dst <> Some (Dir m' es)) ->
  stat w1 dst = Some (File m d).
Proof.
  intros Hc Hs Hd. unfold shutil.copy in Hc.
  assert (match stat w dst with
          | Some (Dir _ _) => posixpath.join dst [posixpath.basename src]
          | _ => dst
          end = dst) as Hdst.
  { destruct (stat w dst) as [[m' x|m' es]|]; try done. by destruct (Hd m' es). }
  rewrite Hdst in Hc.
  destruct (shutil.samefile w src dst); [done |].
  rewrite Hs in Hc.
  destruct (locate w dst) as [cs|] eqn:Hl; [|done].
  destruct (FS.put cs (File m d) (fs w)) as [e|root] eqn:Hp; [done |].
  injection Hc as <-. unfold stat. rewrite locate_set_fs, Hl. simpl.
  by apply (lookup_put _ _ _ _ Hp).
Qed.

(** X2. With the Gradle backend and the binary resolved, the command is
    the binary followed by [compileJava -x test --stacktrace --info]; when
    the bundled [templates/init.gradle] next to the module exists it is
    first copied to [init.gradle] in the workspace root and
    [--init-script] with that path is appended; when that copy raises, the
    run step raises the same exception and no process has been started. *)
Theorem gradle_command_line (self : LocalManager) (w : world) (gradle : string) :
  backend self = PStr "gradle" ->
  fst (resolve_binary gradle_home "gradle" w) = Ok (Some gradle) ->
  let src := posixpath.join (posixpath.dirname (module_file w)) ["templates"; "init.gradle"] in
  let dst := posixpath.join (workspace_path self) ["init.gradle"] in
  let cmd := [gradle; "compileJava"; "-x"; "test"; "--stacktrace"; "--info"] in
  let w0 := add_journal INFO "Running build locally..." w in
  (stat w src = None ->
   exists env w',
     prepare self w = (Ok (Proceed cmd gradle (build_dir self) env), w') /\ fs w' = fs w) /\
  (is_Some (stat w src) -> forall w1,
   shutil.copy src dst w0 = (Ok tt, w1) ->
   exists env w',
     prepare self w
     = (Ok (Proceed (cmd ++ ["--init-script"; dst]) gradle (build_dir self) env), w') /\
     fs w' = fs w1) /\
  (is_Some (stat w src) -> forall e w1,
   shutil.copy src dst w0 = (Raise e, w1) ->
   _run_build self w = (Raise e, w1) /\ launches w1 = launches w).
Proof.
  intros Hb Hr src dst cmd w0.
  pose proof (prepare_gradle_found self w gradle Hb Hr) as Hp. cbv zeta in Hp.
  fold src dst w0 in Hp. split; [|split].
  - intros Hnone. rewrite Hp, Hnone.
    rewrite bool_decide_eq_false_2 by (by intros [? ?]). eauto.
  - intros Hsome w1 Hc. rewrite Hp, (bool_decide_eq_true_2 _ Hsome), Hc. eauto.
  - intros Hsome e w1 Hc. split.
    + unfold _run_build, bind. by rewrite Hp, (bool_decide_eq_true_2 _ Hsome), Hc.
    + pose proof (launches_copy src dst w0) as Hl. rewrite Hc in Hl. exact Hl.
Qed.

Lemma gradle_command_line_witness :
  exists env w',
    prepare gradle17_job extended_host
    = (Ok (Proceed [sample_gradle; "compileJava"; "-x"; "test"; "--stacktrace"; "--info";
                    "--init-script"; "/w/init.gradle"]
             sample_gradle "/w/" env), w') /\
    fs w' = fs (snd (shutil.copy "/opt/agent/src/execution/templates/init.gradle"
                       "/w/init.gradle"
                       (add_journal INFO "Running build locally..." extended_host))).
Proof.
  destruct (gradle_command_line gradle17_job extended_host sample_gradle) as (_ & Hcopy & _).
  - reflexivity.
  - vm_compute. reflexivity.
  - apply Hcopy.
    + vm_compute. eauto.
    + vm_compute. reflexivity.
Defined.

(** X13. When the run step gets through its first half with the Gradle
    backend, the bundled template being a regular file and
    [<workspace>/init.gradle] not a directory, the workspace's
    [init.gradle] is afterwards a copy of the template, content and mode,
    whatever was there before. *)
Theorem init_script_is_installed (self : LocalManager) (w w' : world) (gradle : string)
    m d p :
  backend self = PStr "gradle" ->
  fst (resolve_binary gradle_home "gradle" w) = Ok (Some gradle) ->
  let src := posixpath.join (posixpath.dirname (module_file w)) ["templates"; "init.gradle"] in
  let dst := posixpath.join (workspace_path self) ["init.gradle"] in
  stat w src = Some (File m d) ->
  (forall m' es, stat w dst <> Some (Dir m' es)) ->
  prepare self w = (Ok p, w') ->
  stat w' dst = Some (File m d).
Proof.
  intros Hb Hr src dst Hs Hd Hp.
  rewrite (prepare_gradle_found self w gradle Hb Hr) in Hp. cbv zeta in Hp.
  fold src dst in Hp. rewrite Hs in Hp.
  rewrite bool_decide_eq_true_2 in Hp by eauto.
  destruct (shutil.copy src dst (add_journal INFO "Running build locally..." w))
    as [[[]|e] w1] eqn:Hc; [|done].
  injection Hp as _ <-.
  apply (copy_onto_file src dst _ w1 m d Hc); by rewrite stat_add_journal.
Qed.

Lemma init_script_is_installed_witness :
  stat (snd (prepare gradle17_job extended_host)) "/w/init.gradle"
  = Some (File 420 "allprojects { }").
Proof.
  destruct (prepare gradle17_job extended_host) as [[p|e] w'] eqn:Hp.
  - apply (init_script_is_installed gradle17_job extended_host w' sample_gradle _ _ p).
    + reflexivity.
    + vm_compute. reflexivity.
    + vm_compute. reflexivity.
    + intros m' es H. vm_compute in H. discriminate.
    + exact Hp.
  - vm_compute in Hp. discriminate.
Defined.

(** X3. The run step raises only in one way: with the Gradle backend, the
    binary resolved and the bundled template present, when copying the
    template into the workspace raises; no process has been started then.
    With any other backend value it always returns. *)
Theorem run_build_raises_only_from_copy (self : LocalManager) (w w' : world) (e : exn) :
  _run_build self w = (Raise e, w') ->
  backend self = PStr "gradle" /\
  launches w' = launches w /\
  exists gradle,
    fst (resolve_binary gradle_home "gradle" w) = Ok (Some gradle) /\
    shutil.copy
      (posixpath.join (posixpath.dirname (module_file w)) ["templates"; "init.gradle"])
      (posixpath.join (workspace_path self) ["init.gradle"])
      (add_journal INFO "Running build locally..." w)
    = (Raise e, w').
Proof.
  unfold _run_build, bind. intros Hrun.
  destruct (decide (backend self = PStr "gradle")) as [Hg|Hg].
  - split; [done |].
    destruct (resolve_binary_world gradle_home "gradle" w) as [[gradle|] Hr].
    + rewrite (prepare_gradle_found self w gradle Hg) in Hrun by (by rewrite Hr).
      cbv zeta in Hrun.
      destruct (bool_decide _).
      * pose proof (launches_copy
                      (posixpath.join (posixpath.dirname (module_file w)) ["templates"; "init.gradle"])
                      (posixpath.join (workspace_path self) ["init.gradle"])
                      (add_journal INFO "Running build locally..." w)) as Hl.
        destruct (shutil.copy _ _ _) as [[[]|e'] w1] eqn:Hc.
        -- destruct (start_returns
                       ([gradle; "compileJava"; "-x"; "test"; "--stacktrace"; "--info"]
                        ++ ["--init-script"; posixpath.join (workspace_path self) ["init.gradle"]])
                       gradle (build_dir self)
                       (child_env (environ w) (select_java_home (jdk_version self))
                          (posixpath.dirname gradle))
                       (announce
                          ([gradle; "compileJava"; "-x"; "test"; "--stacktrace"; "--info"]
                           ++ ["--init-script"; posixpath.join (workspace_path self) ["init.gradle"]])
                          (select_java_home (jdk_version self)) (build_dir self) w1))
             as (code & logs & w2 & Es).
           rewrite Es in Hrun. done.
        -- injection Hrun as <- <-. split; [exact Hl |]. exists gradle. by rewrite Hr.
      * destruct (start_returns
                    [gradle; "compileJava"; "-x"; "test"; "--stacktrace"; "--info"]
                    gradle (build_dir self)
                    (child_env (environ w) (select_java_home (jdk_version self))
                       (posixpath.dirname gradle))
                    (announce
                       [gradle; "compileJava"; "-x"; "test"; "--stacktrace"; "--info"]
                       (select_java_home (jdk_version self)) (build_dir self)
                       (add_journal INFO "Running build locally..." w)))
          as (code & logs & w2 & Es).
        rewrite Es in Hrun. done.
    + by rewrite (prepare_gradle_missing self w Hg) in Hrun by (by rewrite Hr).
  - destruct (decide (backend self = PStr "maven")) as [Hm|Hm].
    + destruct (resolve_binary_world maven_home "mvn" w) as [[mvn|] Hr].
      * rewrite (prepare_maven_found self w mvn Hm) in Hrun by (by rewrite Hr).
        cbv zeta in Hrun.
        destruct (start_returns (maven_command self w mvn) mvn (build_dir self)
                    (child_env (environ w) (select_java_home (jdk_version self))
                       (posixpath.dirname mvn))
                    (announce (maven_command self w mvn)
                       (select_java_home (jdk_version self)) (build_dir self)
                       (add_journal INFO "Running build locally..." w)))
          as (code & logs & w2 & Es).
        rewrite Es in Hrun. done.
      * by rewrite (prepare_maven_missing self w Hm) in Hrun by (by rewrite Hr).
    + by rewrite (prepare_unknown self w Hg Hm) in Hrun.
Qed.

Lemma run_build_raises_only_from_copy_witness :
  backend lost_workspace_job = PStr "gradle" /\
  launches (add_journal INFO "Running build locally..." extended_host)
  = launches extended_host.
Proof.
  destruct (run_build_raises_only_from_copy lost_workspace_job extended_host
              (add_journal INFO "Running build locally..." extended_host)
              (FileNotFoundError "/nowhere/init.gradle")) as (Hb & Hl & _).
  - vm_compute. reflexivity.
  - by split.
Defined.

(** ** Processes started by the manager *)

Lemma run_build_launches (self : LocalManager) (w : world) :
  launches (snd (_run_build self w)) = launches w \/
  exists cmd env,
    launches (snd (_run_build self w)) = launches w ++ [Launch cmd (build_dir self) env] /\
    env !! "JAVA_HOME" = Some (select_java_home (jdk_version self)).
Proof.
  unfold _run_build, bind.
  pose proof (launches_prepare self w) as Hl.
  destruct (prepare self w) as [[[code logs|cmd bin cwd env]|e] w1] eqn:Hp;
    simpl in Hl; [by left | | by left].
  destruct (prepare_proceed self w w1 cmd bin cwd env Hp) as (-> & -> & _ & _).
  unfold start, try_except, bind.
  pose proof (launches_chmod bin 493 w1) as Hm.
  destruct (os.chmod bin 493 w1) as [[[]|e] w2]; simpl in Hm.
  - right. eexists _, _. split.
    + unfold subprocess_run.
      destruct (run_child w2 _ _ _ _) as [e|[process root]]; simpl; by rewrite Hm, Hl.
    + unfold child_env. rewrite lookup_insert_ne by done. apply lookup_insert_eq.
  - left. simpl. by rewrite Hm.
Qed.

(** X10. One call of [execute] starts at most one process; when it starts
    one, the working directory given to it is the build directory
    [join(workspace_path, build_relative_path)] and its [JAVA_HOME] is the
    selected JDK home.  Cleaning, tool resolution and extraction start
    none. *)
Theorem execute_starts_at_most_one_process (self : LocalManager) (out : option string)
    (w : world) :
  launches (snd (execute self out w)) = launches w \/
  exists cmd env,
    launches (snd (execute self out w)) = launches w ++ [Launch cmd (build_dir self) env] /\
    env !! "JAVA_HOME" = Some (select_java_home (jdk_version self)).
Proof.
  set (P := fun wf : world =>
              launches wf = launches w \/
              exists cmd env,
                launches wf = launches w ++ [Launch cmd (build_dir self) env] /\
                env !! "JAVA_HOME" = Some (select_java_home (jdk_version self))).
  change (P (snd (execute self out w))).
  assert (forall w2 l msg, P w2 -> P (add_journal l msg w2)) as Hlog by (by intros).
  assert (forall w2 w3, launches w3 = launches w2 -> P w2 -> P w3) as Hsame.
  { intros w2 w3 E H. unfold P in *. by rewrite E. }
  unfold execute, try_except. unfold bind at 1.
  pose proof (launches_clean self w) as Hc.
  destruct (_clean_target_on_host self w) as [[[]|e] w1]; simpl in Hc.
  - unfold bind at 1.
    pose proof (run_build_launches self w1) as Hr. rewrite Hc in Hr. fold (P (snd (_run_build self w1))) in Hr.
    destruct (_run_build self w1) as [[[code logs]|e] w2]; simpl in Hr.
    + destruct (code =? 0); [|exact Hr].
      destruct (truthy out); simpl.
      * unfold bind.
        pose proof (launches_extract self (default "" out) w2) as He.
        destruct (_extract_artifacts self (default "" out) w2) as [[[]|e] w3]; simpl in *.
        -- by apply (Hsame w2).
        -- apply Hlog. by apply (Hsame w2).
      * exact Hr.
    + simpl. by apply Hlog.
  - simpl. apply Hlog. apply (Hsame w); [done |]. by left.
Qed.

Example execute_starts_one_on_sample :
  List.map launch_cmd (launches (snd (execute maven_job (Some "/out") sample_host)))
  = [[sample_mvn; "package"; "-DskipTests"; "-T"; "1C";
      "-Dskip.npm=true"; "-Dskip.node=true"; "-Dskip.installnodenpm=true"]].
Proof. vm_compute. reflexivity. Qed.

(** ** The verdict of [execute] *)

(** X4. [execute] always returns a pair, and it reports success exactly
    when the run step, started on the cleaned workspace, returned exit code
    0 and, if a non-empty destination was given, extraction returned
    normally; the log text is then the run step's, and without a
    destination ([None] or the empty string) the world is left as the run
    step left it. *)
Theorem execute_success_iff (self : LocalManager) (out : option string) (w : world) :
  let w1 := snd (_clean_target_on_host self w) in
  (exists ok logs w', execute self out w = (Ok (ok, logs), w')) /\
  forall logs w',
    execute self out w = (Ok (true, logs), w') <->
    exists w2,
      _run_build self w1 = (Ok (0, logs), w2) /\
      if truthy out then _extract_artifacts self (default "" out) w2 = (Ok tt, w')
      else w' = w2.
Proof.
  intros w1. split; [apply execute_returns |].
  intros logs w'.
  destruct (clean_spec self w) as (w1' & Ec & _).
  assert (w1 = w1') as -> by (unfold w1; by rewrite Ec).
  unfold execute, try_except. unfold bind at 1. rewrite Ec. unfold bind at 1.
  destruct (_run_build self w1') as [[[code l]|e] w2] eqn:Hr.
  - destruct (code =? 0) eqn:Hcode.
    + apply Z.eqb_eq in Hcode. subst code.
      destruct (truthy out); simpl.
      * unfold bind.
        destruct (_extract_artifacts self (default "" out) w2) as [[[]|e] w3] eqn:He.
        -- split.
           ++ intros [= <- <-]. exists w2. by rewrite He.
           ++ intros (w2' & [= <- <-] & He'). rewrite He in He'. by injection He' as <-.
        -- split.
           ++ intros H. discriminate.
           ++ intros (w2' & [= <- <-] & He'). rewrite He in He'. discriminate.
      * unfold bind, ret. split.
        -- intros [= <- <-]. by exists w2.
        -- by intros (w2' & [= <- <-] & ->).
    + split.
      * intros H. discriminate.
      * intros (w2' & [= -> _ _] & _). discriminate.
  - split.
    + intros H. discriminate.
    + intros (w2' & H & _). discriminate.
Qed.

(** X5. Whatever raises inside [execute] comes back as a failure: when the
    run step raises, or when it returns 0 and extraction to a given
    destination raises, the answer is [False] with the text of the
    exception in place of the build log, and one ERROR line is logged. *)
Theorem execute_turns_exceptions_into_failure (self : LocalManager) (out : option string)
    (w wx : world) (e : exn) :
  let w1 := snd (_clean_target_on_host self w) in
  (_run_build self w1 = (Raise e, wx) \/
   exists logs w2,
     _run_build self w1 = (Ok (0, logs), w2) /\ truthy out = true /\
     _extract_artifacts self (default "" out) w2 = (Raise e, wx)) ->
  execute self out w
  = (Ok (false, str_exn e),
     add_journal ERROR ("Execution failed with exception: " +:+ str_exn e) wx).
Proof.
  intros w1 H.
  destruct (clean_spec self w) as (w1' & Ec & _).
  assert (w1 = w1') as -> by (unfold w1; by rewrite Ec).
  unfold execute, try_except. unfold bind at 1. rewrite Ec. unfold bind at 1.
  destruct H as [Hr|(logs & w2 & Hr & Ht & He)]; rewrite Hr; [done |].
  simpl. rewrite Ht. simpl. unfold bind. by rewrite He.
Qed.

Lemma execute_turns_exceptions_into_failure_witness :
  execute lost_workspace_job None extended_host
  = (Ok (false, "[Errno 2] No such file or directory: '/nowhere/init.gradle'"),
     add_journal ERROR
       "Execution failed with exception: [Errno 2] No such file or directory: '/nowhere/init.gradle'"
       (add_journal INFO "Running build locally..." extended_host)).
Proof.
  apply (execute_turns_exceptions_into_failure lost_workspace_job None extended_host
           (add_journal INFO "Running build locally..." extended_host)
           (FileNotFoundError "/nowhere/init.gradle")).
  left. vm_compute. reflexivity.
Defined.

Lemma clean_stat (self : LocalManager) (w : world) :
  let target := posixpath.join (workspace_path self) [build_relative_path self; "target"] in
  let build := posixpath.join (workspace_path self) [build_relative_path self; "build"] in
  exists w1,
    _clean_target_on_host self w = (Ok tt, w1) /\
    stat w1 target = unless_dir (stat w target) /\
    stat w1 build = unless_dir (stat w build) /\
    getcwd w1 = getcwd w.
Proof.
  intros target build.
  set (x := posixpath.join (workspace_path self) [build_relative_path self]).
  set (B := anchor w x).
  destruct (clean_spec self w) as (w1 & E1 & F1 & C1 & _).
  fold x in F1. fold B in F1.
  assert (forall w', getcwd w' = getcwd w ->
            stat w' target = FS.lookup (B ++ ["target"]) (fs w')) as St.
  { intros w' Hc. unfold B. rewrite <- (anchor_same_cwd w w' x Hc).
    apply (stat_join w' x ["target"]); names_ok. }
  assert (forall w', getcwd w' = getcwd w ->
            stat w' build = FS.lookup (B ++ ["build"]) (fs w')) as Sb.
  { intros w' Hc. unfold B. rewrite <- (anchor_same_cwd w w' x Hc).
    apply (stat_join w' x ["build"]); names_ok. }
  assert (B ++ ["target"] <> []) as Nt by (by destruct B).
  assert (B ++ ["build"] <> []) as Nb by (by destruct B).
  exists w1. repeat split; try done.
  - rewrite (St w1 C1), (St w eq_refl), F1.
    rewrite lookup_sweep_other, lookup_sweep_same; [done | done | |];
      by apply siblings_apart.
  - rewrite (Sb w1 C1), (Sb w eq_refl), F1.
    rewrite lookup_sweep_same, lookup_sweep_other; [done | | | done];
      by apply siblings_apart.
Qed.

(** X12. [execute] cleans before it looks at the configuration: with a
    configured backend that is neither "maven" nor "gradle" it answers
    [False] with the unknown-backend message and starts nothing, but
    [target] and [build] of the build directory (for a path without [..]
    components) have been removed all the same. *)
Theorem execute_unknown_backend_still_cleans (self : LocalManager) (out : option string)
    (w : world) (v : pyval) :
  env_config self !! "build_tool" = Some v ->
  v <> PStr "maven" -> v <> PStr "gradle" ->
  let target := posixpath.join (workspace_path self) [build_relative_path self; "target"] in
  let build := posixpath.join (workspace_path self) [build_relative_path self; "build"] in
  exists w',
    execute self out w = (Ok (false, "Unknown build tool: " +:+ py_str v), w') /\
    launches w' = launches w /\
    (plain (build_dir self) = true ->
     stat w' target = unless_dir (stat w target) /\
     stat w' build = unless_dir (stat w build)).
Proof.
  intros Hv Hm Hg target build.
  assert (backend self = v) as Hb by (unfold backend; by rewrite Hv).
  destruct (clean_stat self w) as (w1 & Ec & Ht & Hbd & _).
  pose proof (launches_clean self w) as Hl. rewrite Ec in Hl. simpl in Hl.
  exists (add_journal INFO "Running build locally..." w1).
  split; [|split; [done | by rewrite !stat_add_journal]].
  unfold execute, try_except. unfold bind at 1. rewrite Ec. unfold bind at 1.
  unfold _run_build, bind.
  rewrite (prepare_unknown self w1) by (by rewrite Hb). by rewrite Hb.
Qed.

Lemma execute_unknown_backend_still_cleans_witness :
  exists w',
    execute ant_job None sample_host = (Ok (false, "Unknown build tool: ant"), w') /\
    launches w' = [] /\ stat w' "/w/target" = None /\ stat w' "/w/build" = None.
Proof.
  destruct (execute_unknown_backend_still_cleans ant_job None sample_host (PStr "ant"))
    as (w' & He & Hl & H).
  - reflexivity.
  - discriminate.
  - discriminate.
  - destruct H as (Ht & Hb); [reflexivity |].
    exists w'. split; [exact He |]. split; [exact Hl |]. split; [exact Ht | exact Hb].
Defined.

(** ** Extraction, in detail *)

Lemma copy_step (src dest : string) (w : world) :
  exists w',
    try_except
      (shutil.copytree src dest ;; log INFO ("Artifacts extracted to " +:+ dest))%py
      (fun e => log ERROR ("Failed to extract artifacts: " +:+ str_exn e)) w
    = (Ok tt, w') /\
    getcwd w' = getcwd w /\
    forall D q, locate w dest = Some D ->
      ¬ D `prefix_of` q -> ¬ q `prefix_of` D -> FS.lookup q (fs w') = FS.lookup q (fs w).
Proof.
  unfold try_except, bind, shutil.copytree, log.
  destruct (stat w src) as [[m d|m es]|]; try (eexists; repeat split; done).
  destruct (locate w dest) as [cs|] eqn:Hl; [|eexists; repeat split; done].
  destruct (FS.place cs (Dir m es) (fs w)) as [e|root] eqn:Hp.
  - eexists. repeat split; done.
  - eexists. split; [reflexivity |]. split; [done |].
    intros D q [= <-] H1 H2. simpl. by apply (lookup_place_other _ _ _ _ _ Hp).
Qed.

(** X7. For a destination path without [..] components, extraction changes
    nothing outside [destination/classes]: every path that lies neither
    inside nor above it holds afterwards what it held before, so the class
    tree it copies from, the rest of the workspace and the other entries of
    the destination stay as they were. *)
Theorem extraction_spares_the_rest (self : LocalManager) (out : string) (w : world)
    (q : list string) :
  plain out = true ->
  let D := anchor w out ++ ["classes"] in
  ¬ D `prefix_of` q -> ¬ q `prefix_of` D ->
  FS.lookup q (fs (snd (_extract_artifacts self out w))) = FS.lookup q (fs w).
Proof.
  intros _ D H1 H2.
  set (dest := posixpath.join out ["classes"]).
  assert (locate w dest = Some D) as HD
    by (apply (locate_join w out ["classes"]); names_ok).
  destruct (first_existing w (class_trees self)) as [src|] eqn:Hsrc.
  - rewrite (extract_chosen self out w src Hsrc). fold dest.
    assert (stat w dest = FS.lookup D (fs w)) as Hst by (unfold stat; by rewrite HD).
    unfold bind at 1, os.path_exists. rewrite stat_add_journal, Hst.
    destruct (FS.lookup D (fs w)) as [[m d|m es]|] eqn:Hs; simpl.
    + unfold bind at 1, shutil.rmtree. rewrite locate_add_journal, HD.
      cbn [fs add_journal]. by rewrite Hs.
    + unfold bind at 1, shutil.rmtree. rewrite locate_add_journal, HD.
      cbn [fs add_journal]. rewrite Hs.
      destruct D as [|c D'] eqn:ED; [by destruct (anchor w out) |].
      destruct (copy_step src dest
                  (set_fs (FS.remove (c :: D') (fs w))
                     (add_journal INFO "Extracting artifacts..." w)))
        as (w' & E & _ & Hq).
      rewrite E. cbn [snd]. rewrite (Hq (c :: D') q HD H1 H2). cbn [fs set_fs].
      by apply fs_facts.lookup_remove_other.
    + unfold bind at 1, ret.
      destruct (copy_step src dest (add_journal INFO "Extracting artifacts..." w))
        as (w' & E & _ & Hq).
      rewrite E. cbn [snd]. by rewrite (Hq D q HD H1 H2).
  - unfold _extract_artifacts.
    unfold bind at 1. unfold log at 1.
    unfold bind at 1. rewrite find_classes_spec.
    change (first_existing (add_journal INFO "Extracting artifacts..." w) (class_trees self))
      with (first_existing w (class_trees self)).
    by rewrite Hsrc.
Qed.

Lemma extraction_spares_the_rest_witness :
  FS.lookup ["w"; "target"; "classes"]
    (fs (snd (_extract_artifacts maven_job "/out" sample_host)))
  = Some (Dir 493 [("Old.class", File 420 "old")]).
Proof.
  rewrite (extraction_spares_the_rest maven_job "/out" sample_host ["w"; "target"; "classes"]).
  - reflexivity.
  - reflexivity.
  - intros [k Hk]. vm_compute in Hk. discriminate.
  - intros [k Hk]. vm_compute in Hk. discriminate.
Defined.

(** X8. The old destination is removed before the source is looked at:
    for path strings without [..] components, when the candidate the code
    selects is a regular file and [destination/classes] is a directory,
    extraction returns normally, but the destination's classes are gone,
    nothing has been copied, and the failed copy is in the log as an ERROR
    line. *)
Theorem extraction_from_a_file_loses_old_classes (self : LocalManager) (out : string)
    (w : world) src S D m d m' old :
  plain (build_dir self) = true -> plain out = true ->
  let dest := posixpath.join out ["classes"] in
  find_classes self w = (Ok (Some src), w) ->
  locate w src = Some S -> locate w dest = Some D ->
  FS.lookup S (fs w) = Some (File m d) ->
  FS.lookup D (fs w) = Some (Dir m' old) ->
  ¬ D `prefix_of` S ->
  exists w',
    _extract_artifacts self out w = (Ok tt, w') /\
    stat w' dest = None /\
    journal w' = journal w
                 ++ [(INFO, "Extracting artifacts...");
                     (ERROR, "Failed to extract artifacts: "
                             +:+ str_exn (NotADirectoryError src))].
Proof.
  intros _ _ dest Hsrc HS HD Hs Hd HDS.
  rewrite find_classes_spec in Hsrc.
  apply (extract_file_candidate self out w src S D m d m' old); try done.
  congruence.
Qed.

Lemma extraction_from_a_file_loses_old_classes_witness :
  exists w',
    _extract_artifacts file_classes_job "/out" extended_host = (Ok tt, w') /\
    stat w' "/out/classes" = None /\
    journal w'
    = [(INFO, "Extracting artifacts...");
       (ERROR, "Failed to extract artifacts: [Errno 20] Not a directory: '/w4/target/classes'")].
Proof.
  apply (extraction_from_a_file_loses_old_classes file_classes_job "/out" extended_host
           "/w4/target/classes" ["w4"; "target"; "classes"] ["out"; "classes"]
           420%N "not a tree" 493%N [("B.class", File 420 "previous project")]).
  - reflexivity.
  - reflexivity.
  - vm_compute. reflexivity.
  - reflexivity.
  - reflexivity.
  - reflexivity.
  - reflexivity.
  - intros [k Hk]. discriminate.
Defined.



(** ** The Maven run step from end to end *)





(** ** What the first half of the run step writes *)

Lemma lookup_put_other p : forall q x n r,
  FS.put p x n = inr r ->
  ¬ p `prefix_of` q -> ¬ q `prefix_of` p -> FS.lookup q r = FS.lookup q n.
Proof.
  induction p as [|c p IH]; intros q x n r Hp Hpq Hqp;
    [destruct Hpq; apply prefix_nil |].
  destruct q as [|d q]; [destruct Hqp; apply prefix_nil |].
  destruct n as [m y|m es]; [done |]. simpl in Hp.
  destruct (FS.assoc c es) as [ch|] eqn:E.
  - destruct (FS.put p x ch) as [e|ch'] eqn:Hch; [done |].
    injection Hp as <-. simpl.
    destruct (decide (c = d)) as [->|Hne].
    + rewrite fs_facts.assoc_on_same, E. simpl.
      apply (IH q x ch ch' Hch); intros H; [apply Hpq | apply Hqp]; by apply prefix_cons.
    + by rewrite fs_facts.assoc_on_ne.
  - destruct p as [|c' p']; [|done]. injection Hp as <-. simpl.
    destruct (decide (c = d)) as [->|Hne].
    + destruct Hpq. by apply prefix_cons, prefix_nil.
    + assert (forall l, FS.assoc d (l ++ [(c, x)]) = FS.assoc d l) as Hsn.
      { induction l as [|[k y] l IHl]; simpl.
        - by rewrite (proj2 (String.eqb_neq c d) Hne).
        - by destruct (String.eqb k d). }
      by rewrite Hsn.
Qed.

Lemma join2_tidy_any x d :
  posixpath.valid_name d = true -> posixpath.tidy (posixpath.join2 x d) = true.
Proof.
  intros Hd. unfold posixpath.tidy.
  rewrite (path_facts.join2_not_empty _ _ Hd). simpl.
  apply negb_true_iff.
  pose proof (path_facts.valid_name_not_empty _ Hd) as Hne.
  pose proof (path_facts.no_sep_endswith _ (path_facts.valid_name_no_sep _ Hd)) as He.
  unfold posixpath.join2. rewrite (path_facts.valid_name_not_startswith _ Hd).
  destruct (posixpath.is_empty x || posixpath.endswith_sep x).
  - by rewrite path_facts.endswith_sep_app.
  - rewrite path_facts.endswith_sep_app by done.
    destruct d as [|c d']; [done |]. exact He.
Qed.

Lemma basename_join_two x a b :
  posixpath.valid_name a = true -> posixpath.valid_name b = true ->
  posixpath.basename (posixpath.join x [a; b]) = b.
Proof.
  intros Ha Hb. change (posixpath.join x [a; b])
    with (posixpath.join2 (posixpath.join2 x a) b).
  rewrite (path_facts.join2_tidy _ _ (join2_tidy_any x a Ha) Hb).
  by apply path_facts.basename_app_sep, path_facts.valid_name_no_sep.
Qed.

Lemma copy_frame src dst w D q :
  posixpath.valid_name (posixpath.basename src) = true ->
  locate w dst = Some D ->
  ¬ D `prefix_of` q -> ¬ q `prefix_of` D ->
  FS.lookup q (fs (snd (shutil.copy src dst w))) = FS.lookup q (fs w).
Proof.
  intros Hb HD H1 H2. unfold shutil.copy.
  set (dst' := match stat w dst with
               | Some (Dir _ _) => posixpath.join dst [posixpath.basename src]
               | _ => dst
               end).
  assert (exists D', locate w dst' = Some D' /\
                     ¬ D' `prefix_of` q /\ ¬ q `prefix_of` D') as (D' & HD' & H1' & H2').
  { unfold dst'. destruct (stat w dst) as [[m d|m es]|]; try by exists D.
    exists (D ++ [posixpath.basename src]). split; [|split].
    - unfold locate in *.
      destruct (posixpath.is_empty dst) eqn:Hempty; [done |]. injection HD as <-.
      change (posixpath.join dst [posixpath.basename src])
        with (posixpath.join2 dst (posixpath.basename src)).
      rewrite (path_facts.join2_not_empty _ _ Hb), (path_facts.isabs_join2 _ _ Hb),
        (path_facts.components_join2 _ _ Hb), app_assoc.
      by rewrite path_facts.normalize_snoc by (by apply path_facts.valid_name_not_dotdot).
    - intros [k ->]. apply H1. exists ([posixpath.basename src] ++ k).
      by rewrite <- app_assoc.
    - intros [k Hk]. destruct k as [|c k] using rev_ind.
      + rewrite app_nil_r in Hk. subst q. apply H1. by exists [posixpath.basename src].
      + rewrite app_assoc in Hk. apply app_inj_tail in Hk as [-> _].
        apply H2. by exists k. }
  destruct (shutil.samefile w src dst'); [done |].
  destruct (stat w src) as [[m d|m es]|]; try done.
  rewrite HD'.
  destruct (FS.put D' (File m d) (fs w)) as [e|root] eqn:Hp; [done |].
  simpl. by apply (lookup_put_other _ _ _ _ _ Hp).
Qed.

(** X15. Before the process is started the run step writes to one place
    only: [init.gradle] in the workspace root.  Every path that lies
    neither inside nor above it holds after the first half of the run step
    what it held before, and with a backend other than "gradle" the file
    system is not changed at all. *)
Theorem prepare_writes_only_the_init_script (self : LocalManager) (w : world) :
  (backend self <> PStr "gradle" -> fs (snd (prepare self w)) = fs w) /\
  forall q,
    let D := anchor w (workspace_path self) ++ ["init.gradle"] in
    ¬ D `prefix_of` q -> ¬ q `prefix_of` D ->
    FS.lookup q (fs (snd (prepare self w))) = FS.lookup q (fs w).
Proof.
  assert (backend self <> PStr "gradle" -> fs (snd (prepare self w)) = fs w) as Hother.
  { intros Hg. destruct (decide (backend self = PStr "maven")) as [Hm|Hm].
    - destruct (resolve_binary_world maven_home "mvn" w) as [[mvn|] Hr].
      + by rewrite (prepare_maven_found self w mvn Hm) by (by rewrite Hr).
      + by rewrite (prepare_maven_missing self w Hm) by (by rewrite Hr).
    - by rewrite (prepare_unknown self w Hg Hm). }
  split; [exact Hother |]. intros q D H1 H2.
  destruct (decide (backend self = PStr "gradle")) as [Hg|Hg]; [|by rewrite Hother].
  destruct (resolve_binary_world gradle_home "gradle" w) as [[gradle|] Hr].
  - rewrite (prepare_gradle_found self w gradle Hg) by (by rewrite Hr). cbv zeta.
    destruct (bool_decide _); [|done].
    pose proof (copy_frame
                  (posixpath.join (posixpath.dirname (module_file w)) ["templates"; "init.gradle"])
                  (posixpath.join (workspace_path self) ["init.gradle"])
                  (add_journal INFO "Running build locally..." w) D q) as Hc.
    rewrite basename_join_two in Hc by done.
    specialize (Hc eq_refl).
    rewrite locate_add_journal in Hc.
    rewrite (locate_join w (workspace_path self) ["init.gradle"]) in Hc by names_ok.
    specialize (Hc eq_refl H1 H2).
    destruct (shutil.copy _ _ _) as [[[]|e] w1]; exact Hc.
  - by rewrite (prepare_gradle_missing self w Hg) by (by rewrite Hr).
Qed.

Lemma prepare_writes_only_the_init_script_witness :
  fs (snd (prepare maven_job sample_host)) = fs sample_host /\
  FS.lookup ["w"; "pom.xml"] (fs (snd (prepare gradle17_job extended_host)))
  = Some (File 420 "<project/>").
Proof.
  split.
  - apply (proj1 (prepare_writes_only_the_init_script maven_job sample_host)).
    discriminate.
  - rewrite (proj2 (prepare_writes_only_the_init_script gradle17_job extended_host)
               ["w"; "pom.xml"]).
    + reflexivity.
    + intros [k Hk]. vm_compute in Hk. discriminate.
    + intros [k Hk]. vm_compute in Hk. discriminate.
Defined.
